(** * Meta transformers for panel data (sktime/transformers/panel/compose.py)

    A shallow embedding of the composition module: the column transformer
    that wraps scikit-learn's, the column concatenator, and the two row
    transformers together with their factory.

    Python objects are records; a method that can raise returns a
    [result]; a method that mutates [self] returns the new [self] next to
    its result, so that what an exception leaves behind stays visible.
    Cell values are carried around unchanged by everything modelled here,
    so they are integers. *)

From Stdlib Require Import ZArith QArith Bool Lia.
From stdpp Require Import base list strings.

Open Scope string_scope.
Open Scope nat_scope.

(** ** Exceptions and fallible results *)

Inductive Exception : Type :=
| NotFittedError
| ValueError (msg : string)
| TypeError (msg : string)
| AttributeError (attr : string)
| NotImplementedError (msg : string)
| OverflowError (msg : string)
| IndexError.

Definition result (A : Type) : Type := (Exception + A)%type.

Abbreviation ok := (@inr Exception _) (only parsing).
Abbreviation raise := (@inl Exception _) (only parsing).

Definition bind {A B} (r : result A) (k : A -> result B) : result B :=
  match r with
  | inl e => inl e
  | inr a => k a
  end.

Notation "'do' x <- r ; k" := (bind r (fun x => k))
  (at level 10, x name, r at level 100, k at level 200,
   format "'[v' 'do'  x  <-  r ; '/' k ']'").

Definition is_ok {A} (r : result A) : bool :=
  match r with inr _ => true | inl _ => false end.

(** ** Arrays and tables

    numpy arrays and pandas frames know their shape even when they hold no
    element, so the shape is stored beside the data. *)

Definition series : Type := list Z.

(** A two-dimensional container: a 2D numpy array when [A] is [Z], a
    nested DataFrame when [A] is [series]. *)
Record Table (A : Type) : Type := mkTable {
  shape : nat * nat;
  rows : list (list A)
}.
Arguments mkTable {A} _ _.
Arguments shape {A} _.
Arguments rows {A} _.

Definition n_rows {A} (t : Table A) : nat := fst (shape t).
Definition n_columns {A} (t : Table A) : nat := snd (shape t).

(** A three-dimensional numpy array of shape (N, D, T). *)
Record Array3 : Type := mkArray3 {
  shape3 : nat * nat * nat;
  items : list (list series)
}.

Definition dim0 (a : Array3) : nat := fst (fst (shape3 a)).
Definition dim1 (a : Array3) : nat := snd (fst (shape3 a)).
Definition dim2 (a : Array3) : nat := snd (shape3 a).

Definition has_length {A} (n : nat) (l : list A) : bool := length l =? n.

Definition well_shaped {A} (t : Table A) : bool :=
  has_length (n_rows t) (rows t) && forallb (has_length (n_columns t)) (rows t).

Definition well_shaped3 (a : Array3) : bool :=
  has_length (dim0 a) (items a)
  && forallb (fun inst => has_length (dim1 a) inst
                          && forallb (has_length (dim2 a)) inst) (items a).

(** What a caller may hand to a transformer. *)
Inductive PyInput : Type :=
| DataFrame (df : Table series)
| Ndarray3 (a : Array3)
| OtherObject.

(** A validated panel: a nested DataFrame or a 3D array. *)
Inductive Panel : Type :=
| Nested (df : Table series)
| Numpy3D (a : Array3).

Definition n_instances (X : Panel) : nat :=
  match X with
  | Nested df => n_rows df
  | Numpy3D a => dim0 a
  end.

Definition n_variables (X : Panel) : nat :=
  match X with
  | Nested df => n_columns df
  | Numpy3D a => dim1 a
  end.

(** ** Data utilities (sktime.utils.data_processing, sktime.utils.validation) *)

Module Utils.

Definition unequal_length : Exception :=
  NotImplementedError "Unequal length multivariate data are not supported yet.".

(** The common length of all cells, when there is one; an empty table
    has length 0. *)
Definition common_length (cells : list series) : option nat :=
  match cells with
  | [] => Some 0
  | c :: cs => if forallb (has_length (length c)) cs then Some (length c) else None
  end.

Definition equal_length (df : Table series) : bool :=
  match common_length (concat (rows df)) with
  | Some _ => true
  | None => false
  end.

(** Modelled from the spec: [from_nested_to_2d_array] of
    sktime.utils.data_processing is not part of the sources.  It flattens
    a nested table to tabular form, rows = instances, columns = the D*T
    values in variable-major, time-minor order, and succeeds only when
    all series have equal length. *)
Definition from_nested_to_2d_array (X : Table series) : result (Table Z) :=
  match common_length (concat (rows X)) with
  | Some T => ok (mkTable (n_rows X, n_columns X * T) (map (@concat Z) (rows X)))
  | None => raise unequal_length
  end.

(** Modelled from the spec: [from_3d_numpy_to_2d_array] is not part of
    the sources.  An (N, D, T) array becomes an (N, D*T) array, each
    row holding the instance's variables one after the other. *)
Definition from_3d_numpy_to_2d_array (X : Array3) : Table Z :=
  mkTable (dim0 X, dim1 X * dim2 X) (map (@concat Z) (items X)).

(** Modelled from the spec: [from_2d_array_to_nested] is not part of the
    sources.  A tabular (N, M) array is re-nested into a single-column
    nested table: N rows, one cell per row holding the row's M values. *)
Definition from_2d_array_to_nested (X : Table Z) : Table series :=
  mkTable (n_rows X, 1) (map (fun r => [r]) (rows X)).

(** Modelled from the spec: the nested <-> 3D converters used by the
    coercions of [check_X]; a nested table has a 3D form only when all
    its series share one length T. *)
Definition from_nested_to_3d_numpy (X : Table series) : result Array3 :=
  match common_length (concat (rows X)) with
  | Some T => ok (mkArray3 (n_rows X, n_columns X, T) (rows X))
  | None => raise unequal_length
  end.

(** Modelled from the spec: the converse converter, from the 3D array to
    the nested table with one cell per instance and variable. *)
Definition from_3d_numpy_to_nested (X : Array3) : Table series :=
  mkTable (dim0 X, dim1 X) (items X).

Definition malformed : Exception :=
  ValueError "X must be a nested pandas DataFrame or a 3d numpy array".

(** Modelled from the spec: [check_X] of sktime.utils.validation.panel is
    not part of the sources.  It normalises the panel representations
    into one canonical form and raises on malformed input: an object
    that is neither a nested DataFrame nor a 3D array, or data that does
    not fill its declared shape.  [check_X(X)] keeps the representation. *)
Definition check_X (X : PyInput) : result Panel :=
  match X with
  | DataFrame df => if well_shaped df then ok (Nested df) else raise malformed
  | Ndarray3 a => if well_shaped3 a then ok (Numpy3D a) else raise malformed
  | OtherObject => raise malformed
  end.

(** Modelled from the spec: [check_X(X, coerce_to_numpy=True)], the same
    check followed by the coercion to the 3D array form, with its leading
    instance axis. *)
Definition check_X_coerce_to_numpy (X : PyInput) : result Array3 :=
  do X <- check_X X;
  match X with
  | Nested df => from_nested_to_3d_numpy df
  | Numpy3D a => ok a
  end.

(** Modelled from the spec: [check_X(X, coerce_to_pandas=True)], the same
    check followed by the coercion to the nested form. *)
Definition check_X_coerce_to_pandas (X : PyInput) : result (Table series) :=
  do X <- check_X X;
  match X with
  | Nested df => ok df
  | Numpy3D a => ok (from_3d_numpy_to_nested a)
  end.

End Utils.

(** ** ColumnConcatenator *)

Module ColumnConcatenator.
Import Utils.

Record t : Type := mk { _is_fitted : bool }.

(** Modelled from the spec: [check_is_fitted] is inherited from the base
    estimator, which is not part of the sources; a transformer that was
    not fitted fails with a not-fitted error. *)
Definition check_is_fitted (self : t) : result unit :=
  if _is_fitted self then ok tt else raise NotFittedError.

(** Modelled from the spec: the inherited [fit] has nothing to learn and
    only marks the transformer fitted. *)
Definition fit (self : t) (X : PyInput) : t := mk true.

Definition transform (self : t) (X : PyInput) : result (Table series) :=
  do _ <- check_is_fitted self;
  do X <- check_X X;
  do Xt <- match X with
           | Nested df => from_nested_to_2d_array df
           | Numpy3D a => ok (from_3d_numpy_to_2d_array a)
           end;
  ok (from_2d_array_to_nested Xt).

(** A panel the concatenator can work on: well-formed, and, for the
    nested form, with series of one length. *)
Definition valid_panel (X : PyInput) : bool :=
  match X with
  | DataFrame df => well_shaped df && equal_length df
  | Ndarray3 a => well_shaped3 a
  | OtherObject => false
  end.

Definition input_instances (X : PyInput) : nat :=
  match X with
  | DataFrame df => n_rows df
  | Ndarray3 a => dim0 a
  | OtherObject => 0
  end.

End ColumnConcatenator.

(** ** ColumnTransformer

    The class inherits from scikit-learn's ColumnTransformer and overrides
    [_hstack], [_validate_output], [fit], [transform] and [fit_transform].
    The inherited implementation is a dependency of the module, so it
    enters as a parameter; the attributes it keeps on the object are the
    record [SkColumnTransformer]. *)

Module ColumnTransformer.
Import Utils.

(** The Python types the code tells apart. *)
Inductive PyType : Type :=
| np_ndarray
| sparse_matrix
| pd_DataFrame
| pd_Series
| other_type.

#[export] Instance PyType_eq_dec : EqDecision PyType.
Proof. solve_decision. Defined.

(** The output of one entry's transformer, described by what the code
    inspects: its type and its shape.  The stacking functions of scipy,
    pandas and numpy stay symbolic, so the values are left out. *)
Inductive Output : Type :=
| NdArray (shape : list nat)
| SparseMatrix (n_rows n_columns nnz : nat)
| PdDataFrame (n_rows n_columns : nat)
| PdSeries (length : nat)
| OtherOutput.

Definition type_of (X : Output) : PyType :=
  match X with
  | NdArray _ => np_ndarray
  | SparseMatrix _ _ _ => sparse_matrix
  | PdDataFrame _ _ => pd_DataFrame
  | PdSeries _ => pd_Series
  | OtherOutput => other_type
  end.

(** [getattr(X, "ndim", 0)] *)
Definition getattr_ndim (X : Output) : nat :=
  match X with
  | NdArray shape => length shape
  | SparseMatrix _ _ _ => 2
  | PdDataFrame _ _ => 2
  | PdSeries _ => 1
  | OtherOutput => 0
  end.

Definition isinstance (X : Output) (T : PyType) : bool :=
  bool_decide (type_of X = T).

(** What the three branches of [_hstack] return: the result of the library
    call, recorded with its arguments. *)
Inductive Stacked : Type :=
| sparse_hstack_tocsr (Xs : list Output)
| pd_concat_columns (Xs : list Output)
| np_hstack (Xs : list Output).

(** [sparse.hstack], [pd.concat] and [np.hstack] are dependencies of the
    module, and each of them refuses some lists of entries.  [Stackers]
    tells, for each of the three, on which entries it raises and what. *)
Record Stackers : Type := mkStackers {
  sparse_hstack_raises : list Output -> option Exception;
  pd_concat_raises : list Output -> option Exception;
  np_hstack_raises : list Output -> option Exception
}.

(** A library call: its exception, or else the value it returns. *)
Definition library_call (raises : option Exception) (value : Stacked)
    : result Stacked :=
  match raises with
  | Some e => raise e
  | None => ok value
  end.

Definition is_sparse_result (r : Stacked) : bool :=
  match r with
  | sparse_hstack_tocsr _ => true
  | _ => false
  end.

Inductive ColumnSpec : Type :=
| drop
| passthrough
| estimator (id : string).

Definition Columns : Type := list nat.
Definition Target : Type := option (list Z).

(** The attributes scikit-learn's implementation keeps on the object: the
    constructor parameters and, once fitted, [transformers_] and
    [sparse_output_]. *)
Record SkColumnTransformer : Type := mkSk {
  transformers : list (string * ColumnSpec * Columns);
  remainder : ColumnSpec;
  sparse_threshold : Q;
  n_jobs : Z;
  transformer_weights : option (list (string * Q));
  transformers_ : option (list (string * ColumnSpec * Columns));
  sparse_output_ : option bool
}.

Record t : Type := mk {
  base : SkColumnTransformer;
  preserve_dataframe : bool;
  _is_fitted : bool
}.

Definition set_base (self : t) (b : SkColumnTransformer) : t :=
  mk b (preserve_dataframe self) (_is_fitted self).

Definition set_is_fitted (self : t) (b : bool) : t :=
  mk (base self) (preserve_dataframe self) b.

Definition __init__ (transformers : list (string * ColumnSpec * Columns))
    (remainder : ColumnSpec) (sparse_threshold : Q) (n_jobs : Z)
    (transformer_weights : option (list (string * Q)))
    (preserve_dataframe : bool) : t :=
  mk (mkSk transformers remainder sparse_threshold n_jobs transformer_weights None None)
     preserve_dataframe false.

(** Modelled from the spec: [check_is_fitted] is inherited from the base
    estimator, which is not part of the sources; before [fit] it fails
    with a not-fitted error. *)
Definition check_is_fitted (self : t) : result unit :=
  if _is_fitted self then ok tt else raise NotFittedError.

Definition _hstack (lib : Stackers) (self : t) (Xs : list Output)
    : result Stacked :=
  let types := remove_dups (map type_of Xs) in
  match sparse_output_ (base self) with
  | None => raise (AttributeError "sparse_output_")
  | Some true => library_call (sparse_hstack_raises lib Xs) (sparse_hstack_tocsr Xs)
  | Some false =>
      if preserve_dataframe self
         && (bool_decide (pd_Series ∈ types) || bool_decide (pd_DataFrame ∈ types))
      then library_call (pd_concat_raises lib Xs) (pd_concat_columns Xs)
      else library_call (np_hstack_raises lib Xs) (np_hstack Xs)
  end.

Definition output_message (name : string) : string :=
  "The output of the '" ++ name
  ++ "' transformer should be 2D (scipy matrix, array, or pandas DataFrame).".

Definition accepted_output (X : Output) : bool :=
  (getattr_ndim X =? 2) || isinstance X pd_Series.

Definition rejected (X : Output) : Prop := accepted_output X = false.

#[export] Instance rejected_dec (X : Output) : Decision (rejected X).
Proof. unfold rejected. apply _. Defined.

Fixpoint validate_each (pairs : list (Output * string)) : result unit :=
  match pairs with
  | [] => ok tt
  | (Xs, name) :: rest =>
      if negb (accepted_output Xs)
      then raise (ValueError (output_message name))
      else validate_each rest
  end.

Section Inherited.

(** [self._iter(fitted, replace_strings)] of the inherited class: the
    (name, transformer, columns, weight) entries it walks over. *)
Variable _iter :
  SkColumnTransformer -> bool -> bool ->
  list (string * ColumnSpec * Columns * option Q).

(** [super().fit], [super().fit_transform] and [super().transform].  They
    work on the inherited attributes, may consult the flag the overrides
    read, and leave their attributes behind also when they raise. *)
Variable sk_fit :
  bool -> SkColumnTransformer -> PyInput -> Target ->
  SkColumnTransformer * result unit.
Variable sk_fit_transform :
  bool -> SkColumnTransformer -> PyInput -> Target ->
  SkColumnTransformer * result Stacked.
Variable sk_transform :
  bool -> SkColumnTransformer -> PyInput ->
  SkColumnTransformer * result Stacked.

(** [[name for name, _, _, _ in self._iter(fitted=True, replace_strings=True)]] *)
Definition fitted_names (self : t) : list string :=
  map (fun '(name, _, _, _) => name) (_iter (base self) true true).

Definition _validate_output (self : t) (outputs : list Output) : result unit :=
  let names := fitted_names self in
  validate_each (zip outputs names).

Definition fit (self : t) (X : PyInput) (y : Target) : t * result unit :=
  match check_X_coerce_to_pandas X with
  | inl e => (self, raise e)
  | inr X =>
      let '(b, r) := sk_fit (preserve_dataframe self) (base self) (DataFrame X) y in
      match r with
      | inl e => (set_base self b, raise e)
      | inr _ => (set_is_fitted (set_base self b) true, ok tt)
      end
  end.

Definition transform (self : t) (X : PyInput) : t * result Stacked :=
  match check_is_fitted self with
  | inl e => (self, raise e)
  | inr _ =>
      match check_X_coerce_to_pandas X with
      | inl e => (self, raise e)
      | inr X =>
          let '(b, r) := sk_transform (preserve_dataframe self) (base self) (DataFrame X) in
          (set_base self b, r)
      end
  end.

Definition fit_transform (self : t) (X : PyInput) (y : Target) : t * result Stacked :=
  let '(b, r) := sk_fit_transform (preserve_dataframe self) (base self) X y in
  match r with
  | inl e => (set_base self b, raise e)
  | inr Xt => (set_is_fitted (set_base self b) true, ok Xt)
  end.

(** [fit(X, y)] followed by [transform(X)] on the fitted object. *)
Definition fit_then_transform (self : t) (X : PyInput) (y : Target) : t * result Stacked :=
  let '(self1, r) := fit self X y in
  match r with
  | inl e => (self1, raise e)
  | inr _ => transform self1 X
  end.

(** The public calls of the class, and what running a sequence of them on
    an object leaves behind. *)
Inductive Call : Type :=
| call_fit (X : PyInput) (y : Target)
| call_fit_transform (X : PyInput) (y : Target)
| call_transform (X : PyInput).

Definition run_call (self : t) (c : Call) : t * bool :=
  match c with
  | call_fit X y => let '(s, r) := fit self X y in (s, is_ok r)
  | call_fit_transform X y => let '(s, r) := fit_transform self X y in (s, is_ok r)
  | call_transform X => let '(s, r) := transform self X in (s, is_ok r)
  end.

Definition is_fitting_call (c : Call) : bool :=
  match c with
  | call_transform _ => false
  | _ => true
  end.

(** Runs the calls in order; the second component tells whether some
    [fit] or [fit_transform] among them completed. *)
Fixpoint run_calls (self : t) (cs : list Call) : t * bool :=
  match cs with
  | [] => (self, false)
  | c :: rest =>
      let '(s, completed) := run_call self c in
      let '(s', later) := run_calls s rest in
      (s', (is_fitting_call c && completed) || later)
  end.

End Inherited.

(** The number of cells of an output, and how many of them it stores: all
    of them unless it is sparse. *)
Definition size_of (X : Output) : nat :=
  match X with
  | NdArray shape => foldr Nat.mul 1 shape
  | SparseMatrix r c _ => r * c
  | PdDataFrame r c => r * c
  | PdSeries n => n
  | OtherOutput => 0
  end.

Definition stored_of (X : Output) : nat :=
  match X with
  | SparseMatrix _ _ nnz => nnz
  | _ => size_of X
  end.

(** Modelled from the spec: the sparse-output condition, which the
    inherited implementation evaluates when fitting and keeps in
    [sparse_output_].  Some entry is sparse and the overall density,
    stored cells over all cells, is below the threshold. *)
Definition sparse_output_condition (threshold : Q) (Xs : list Output) : bool :=
  existsb (fun X => isinstance X sparse_matrix) Xs
  && negb (Qle_bool (threshold * inject_Z (Z.of_nat (sum_list (map size_of Xs))))
                    (inject_Z (Z.of_nat (sum_list (map stored_of Xs))))).

End ColumnTransformer.

(** ** Row transformers

    [_RowTransformer] and its two subclasses apply a clone of one series
    transformer to every instance of a panel. *)

Module RowTransformer.
Import Utils.

(** What a series transformer returns from [fit_transform]: a number, a
    one-dimensional or a two-dimensional array. *)
Inductive PyValue : Type :=
| Scalar (v : Z)
| Array1 (values : list Z)
| Array2 (a : Table Z).

(** The interface consumed from the wrapped transformer: cloning through
    scikit-learn's [clone], [fit_transform] (which changes the object it
    is called on, also when it raises), and the two capability classes
    [_SeriesToSeriesTransformer] and [_SeriesToPrimitivesTransformer] an
    object may be an instance of. *)
Inductive TransformerType : Type :=
| _SeriesToPrimitivesTransformer
| _SeriesToSeriesTransformer.

Class Estimator (T : Type) : Type := {
  clone : T -> T;
  fit_transform : T -> Table Z -> T * result PyValue;
  isinstance : T -> TransformerType -> bool
}.

Definition __name__ (ty : TransformerType) : string :=
  match ty with
  | _SeriesToPrimitivesTransformer => "_SeriesToPrimitivesTransformer"
  | _SeriesToSeriesTransformer => "_SeriesToSeriesTransformer"
  end.

(** The two concrete classes. *)
Inductive Class_ : Type :=
| SeriesToPrimitivesRowTransformer
| SeriesToSeriesRowTransformer.

Definition _valid_transformer_type (cls : Class_) : TransformerType :=
  match cls with
  | SeriesToPrimitivesRowTransformer => _SeriesToPrimitivesTransformer
  | SeriesToSeriesRowTransformer => _SeriesToSeriesTransformer
  end.

(** [X.T] of a 2D array. *)
Definition transpose (a : Table Z) : Table Z :=
  mkTable (n_columns a, n_rows a)
          (map (fun j => map (fun r => nth j r 0%Z) (rows a)) (seq 0 (n_columns a))).

(** [X[i]] of a 3D array. *)
Definition getitem (X : Array3) (i : nat) : result (Table Z) :=
  match items X !! i with
  | Some inst => ok (mkTable (dim1 X, dim2 X) inst)
  | None => raise IndexError
  end.

Definition np_zeros (shape : nat * nat) : Table Z :=
  mkTable shape (replicate (fst shape) (replicate (snd shape) 0%Z)).

Definition broadcast_error : Exception :=
  ValueError "could not broadcast input array into the row".

(** numpy's rule for [Xt[i] = value] when the row has length D: a value of
    that length is copied, a single value is repeated, a leading axis of
    length one is dropped, anything else does not fit. *)
Definition broadcast_values (D : nat) (values : list Z) : result (list Z) :=
  if length values =? D then ok values
  else match values with
       | [v] => ok (replicate D v)
       | _ => raise broadcast_error
       end.

Definition broadcast_row (D : nat) (value : PyValue) : result (list Z) :=
  match value with
  | Scalar v => ok (replicate D v)
  | Array1 values => broadcast_values D values
  | Array2 a =>
      match rows a with
      | [values] => broadcast_values D values
      | _ => raise broadcast_error
      end
  end.

(** [Xt] is made by [np.zeros], an array of float64: what is assigned to
    it is converted.  A number of magnitude below 2^53 is kept as it is;
    a larger one is rounded to 53 significant bits, to nearest and to
    even on a tie; one that rounds to 2^1024 or beyond is too large. *)
Definition round_to_53_bits (m : Z) : Z :=
  if (m <? 2 ^ 53)%Z then m
  else
    let e := (Z.log2 m - 52)%Z in
    let q := Z.shiftr m e in
    let r := Z.land m (Z.ones e) in
    let half := Z.shiftl 1 (e - 1) in
    let q' := if (r <? half)%Z then q
              else if (half <? r)%Z then (q + 1)%Z
              else if Z.even q then q else (q + 1)%Z in
    Z.shiftl q' e.

Definition float64 (v : Z) : result Z :=
  let r := (Z.sgn v * round_to_53_bits (Z.abs v))%Z in
  if (Z.abs r <? 2 ^ 1024)%Z then ok r
  else raise (OverflowError "int too large to convert to float").

Fixpoint to_float64 (values : list Z) : result (list Z) :=
  match values with
  | [] => ok []
  | v :: rest => do x <- float64 v; do l <- to_float64 rest; ok (x :: l)
  end.

(** The row that [Xt[i] = value] stores: the value broadcast to the
    length of the row and converted. *)
Definition assigned_row (D : nat) (value : PyValue) : result (list Z) :=
  do row <- broadcast_row D value;
  to_float64 row.

Definition setitem (Xt : Table Z) (i : nat) (value : PyValue) : result (Table Z) :=
  do row <- assigned_row (n_columns Xt) value;
  ok (mkTable (shape Xt) (<[i := row]> (rows Xt))).

(** [for i in range(n): body], the state surviving an exception. *)
Fixpoint for_range {S : Type} (body : nat -> S -> S * result unit)
    (range : list nat) (s : S) : S * result unit :=
  match range with
  | [] => (s, ok tt)
  | i :: rest =>
      let '(s1, r) := body i s in
      match r with
      | inl e => (s1, raise e)
      | inr _ => for_range body rest s1
      end
  end.

(** [pd.concat(xts, axis=0)] of one-row nested frames: the rows in order,
    aligned on the union of the columns, an absent cell being NaN; pandas
    refuses an empty list. *)
Definition pad_row (width : nat) (row : list series) : list (option series) :=
  map Some row ++ replicate (width - length row) None.

Definition pd_concat_rows (xts : list (Table series)) : result (Table (option series)) :=
  match xts with
  | [] => raise (ValueError "No objects to concatenate")
  | _ =>
      let width := foldr Nat.max 0 (map n_columns xts) in
      ok (mkTable (sum_list (map n_rows xts), width)
                  (map (pad_row width) (concat (map rows xts))))
  end.

(** [frame.T] of a nested frame with a single column. *)
Definition transpose_nested (df : Table series) : Table series :=
  mkTable (n_columns df, n_rows df) [concat (rows df)].

Section Broadcaster.
Context {T : Type} `{Estimator T}.

Record t : Type := mk {
  cls : Class_;
  transformer : T;
  check_transformer : bool;
  _is_fitted : bool;
  transformer_ : option (list T)
}.

Definition set_transformer_ (self : t) (ts : option (list T)) : t :=
  mk (cls self) (transformer self) (check_transformer self) (_is_fitted self) ts.

(** The constructor stores its two arguments and calls the base
    constructor, which is not part of the sources and leaves the object
    unfitted.  Nothing is checked here. *)
Definition __init__ (cls : Class_) (transformer : T) (check_transformer : bool)
    : result t :=
  ok (mk cls transformer check_transformer false None).

(** Modelled from the spec: [fit] and [check_is_fitted] are inherited from
    the base transformer, which is not part of the sources.  The row
    transformers are fitted trivially, and an unfitted one fails with a
    not-fitted error. *)
Definition fit (self : t) (X : PyInput) : t :=
  mk (cls self) (transformer self) (check_transformer self) true (transformer_ self).

Definition check_is_fitted (self : t) : result unit :=
  if _is_fitted self then ok tt else raise NotFittedError.

(** Both concrete classes define [_valid_transformer_type], so the
    assertion that opens the method in the source holds. *)
Definition _check_transformer (self : t) : result unit :=
  if check_transformer self
     && negb (isinstance (transformer self) (_valid_transformer_type (cls self)))
  then raise (TypeError ("transformer must be a "
                         ++ __name__ (_valid_transformer_type (cls self))))
  else ok tt.

Definition _prepare (self : t) (X : PyInput) : t * result Array3 :=
  match check_is_fitted self with
  | inl e => (self, raise e)
  | inr _ =>
      match _check_transformer self with
      | inl e => (self, raise e)
      | inr _ =>
          match check_X_coerce_to_numpy X with
          | inl e => (self, raise e)
          | inr X =>
              (set_transformer_ self
                 (Some (map (fun _ => clone (transformer self)) (seq 0 (dim0 X)))),
               ok X)
          end
      end
  end.

(** [self.transformer_[i].fit_transform(X[i].T)]: the clone at index [i] is
    fitted in place. *)
Definition fit_transform_at (X : Array3) (i : nat) (self : t) : t * result PyValue :=
  match transformer_ self with
  | None => (self, raise (AttributeError "transformer_"))
  | Some ts =>
      match ts !! i with
      | None => (self, raise IndexError)
      | Some c =>
          match getitem X i with
          | inl e => (self, raise e)
          | inr Xi =>
              let '(c', r) := fit_transform c (transpose Xi) in
              (set_transformer_ self (Some (<[i := c']> ts)), r)
          end
      end
  end.

Definition primitives_body (X : Array3) (i : nat) (s : t * Table Z)
    : (t * Table Z) * result unit :=
  let '(self, Xt) := s in
  let '(self, r) := fit_transform_at X i self in
  match r with
  | inl e => ((self, Xt), raise e)
  | inr value =>
      match setitem Xt i value with
      | inl e => ((self, Xt), raise e)
      | inr Xt => ((self, Xt), ok tt)
      end
  end.

(** [SeriesToPrimitivesRowTransformer.transform] *)
Definition transform_primitives (self : t) (X : PyInput) : t * result (Table Z) :=
  let '(self, r) := _prepare self X in
  match r with
  | inl e => (self, raise e)
  | inr X =>
      let Xt := np_zeros (dim0 X, dim1 X) in
      let '((self, Xt), r) := for_range (primitives_body X) (seq 0 (dim0 X)) (self, Xt) in
      match r with
      | inl e => (self, raise e)
      | inr _ => (self, ok Xt)
      end
  end.

(** [from_2d_array_to_nested(xt.T).T]; the helper takes a 2D array, any
    other value makes the call fail. *)
Definition nest_instance (xt : PyValue) : result (Table series) :=
  match xt with
  | Array2 a => ok (transpose_nested (from_2d_array_to_nested (transpose a)))
  | _ => raise (ValueError "the transformed series must be two-dimensional")
  end.

Definition series_body (X : Array3) (i : nat) (s : t * list (Table series))
    : (t * list (Table series)) * result unit :=
  let '(self, xts) := s in
  let '(self, r) := fit_transform_at X i self in
  match r with
  | inl e => ((self, xts), raise e)
  | inr xt =>
      match nest_instance xt with
      | inl e => ((self, xts), raise e)
      | inr row => ((self, (xts ++ [row])%list), ok tt)
      end
  end.

(** [SeriesToSeriesRowTransformer.transform] *)
Definition transform_series (self : t) (X : PyInput)
    : t * result (Table (option series)) :=
  let '(self, r) := _prepare self X in
  match r with
  | inl e => (self, raise e)
  | inr X =>
      let '((self, xts), r) := for_range (series_body X) (seq 0 (dim0 X)) (self, []) in
      match r with
      | inl e => (self, raise e)
      | inr _ => (self, pd_concat_rows xts)
      end
  end.

Definition valid_transformer_types : list string :=
  ["series-to-series"; "series-to-primitives"].

Definition invalid_transformer_type : Exception :=
  ValueError "Invalid `transformer_type`. Please choose one of ('series-to-series', 'series-to-primitives').".

Definition type_not_understood : Exception :=
  TypeError "transformer type not understood. Please specify `transformer_type`.".

(** The keyword arguments are handed to the constructor; the only one it
    takes besides the transformer is [check_transformer], True by default. *)
Definition make_row_transformer (transformer : T) (transformer_type : option string)
    (kwargs : option bool) : result t :=
  do transformer_type <-
    match transformer_type with
    | Some ty =>
        if bool_decide (ty ∈ valid_transformer_types) then ok ty
        else raise invalid_transformer_type
    | None =>
        if isinstance transformer _SeriesToSeriesTransformer
        then ok "series-to-series"
        else if isinstance transformer _SeriesToPrimitivesTransformer
        then ok "series-to-primitives"
        else raise type_not_understood
    end;
  if String.eqb transformer_type "series-to-series"
  then __init__ SeriesToSeriesRowTransformer transformer (default true kwargs)
  else __init__ SeriesToPrimitivesRowTransformer transformer (default true kwargs).

(** The method of the object's class. *)
Inductive Transformed : Type :=
| Tabular (Xt : Table Z)
| NestedFrame (Xt : Table (option series)).

Definition transform (self : t) (X : PyInput) : t * result Transformed :=
  match cls self with
  | SeriesToPrimitivesRowTransformer =>
      let '(self, r) := transform_primitives self X in
      (self, do Xt <- r; ok (Tabular Xt))
  | SeriesToSeriesRowTransformer =>
      let '(self, r) := transform_series self X in
      (self, do Xt <- r; ok (NestedFrame Xt))
  end.

(** [_prepare] lets the call through: the object is fitted, the type
    check passes and the input coerces to the 3D array [X3]. *)
Definition prepared (self : t) (X : PyInput) (X3 : Array3) : Prop :=
  _is_fitted self = true
  /\ _check_transformer self = ok tt
  /\ check_X_coerce_to_numpy X = ok X3.

(** No clone is held by the object. *)
Definition holds_no_clone (self : t) : Prop :=
  transformer_ self = None \/ transformer_ self = Some [].

(** *** One instance on its own

    The functions below describe what the loops compute instance by
    instance; the statements about [transform] are phrased with them. *)

(** [X[i].T]: time axis first, variable axis second. *)
Definition instance_input (X : Array3) (inst : list series) : Table Z :=
  transpose (mkTable (dim1 X, dim2 X) inst).

(** A fresh clone of the template fitted and applied to one instance. *)
Definition fit_clone (template : T) (X : Array3) (inst : list series)
    : T * result PyValue :=
  fit_transform (clone template) (instance_input X inst).

Definition primitives_row (template : T) (X : Array3) (inst : list series)
    : result (list Z) :=
  do value <- snd (fit_clone template X inst);
  assigned_row (dim1 X) value.

Definition series_row (template : T) (X : Array3) (inst : list series)
    : result (Table series) :=
  do xt <- snd (fit_clone template X inst);
  nest_instance xt.

(** The results in order, or the first exception in order. *)
Fixpoint collect {A : Type} (rs : list (result A)) : result (list A) :=
  match rs with
  | [] => ok []
  | r :: rest => do a <- r; do l <- collect rest; ok (a :: l)
  end.

(** The clones after the loop went over the instances: fitted up to and
    including the first instance that raised, untouched after it. *)
Fixpoint clones_after {A : Type} (template : T) (X : Array3)
    (row : list series -> result A) (insts : list (list series)) : list T :=
  match insts with
  | [] => []
  | inst :: rest =>
      fst (fit_clone template X inst)
      :: (if is_ok (row inst) then clones_after template X row rest
          else map (fun _ => clone template) rest)
  end.

(** The rows gathered before the first exception. *)
Fixpoint rows_before {A : Type} (row : list series -> result A)
    (insts : list (list series)) : list A :=
  match insts with
  | [] => []
  | inst :: rest =>
      match row inst with
      | inl _ => []
      | inr a => a :: rows_before row rest
      end
  end.

End Broadcaster.
Arguments t T : clear implicits.

End RowTransformer.

(** ** Un-nesting one row ([_from_nested_to_series]) *)

Module Unnest.
Import Utils RowTransformer.

(** What the helper returns: a numpy array from its first branch, a
    DataFrame from its second. *)
Inductive Unnested : Type :=
| as_ndarray (a : Table Z)
| as_DataFrame (df : Table Z).

Definition table_of (u : Unnested) : Table Z :=
  match u with
  | as_ndarray a => a
  | as_DataFrame df => df
  end.

(** [np.asarray(c).reshape(-1, 1)]: one column holding the values. *)
Definition reshape_column (c : series) : Table Z :=
  mkTable (length c, 1) (map (fun v => [v]) c).

(** [pd.DataFrame(data)] of sequences of one length: a row per sequence. *)
Definition frame_of_rows (data : list series) : Table Z :=
  mkTable (length data, default 0 (head (map length data))) data.

(** [x] is one row of a nested table, the list of its cells.  A row of
    one cell becomes a column; otherwise the lengths of the cells, put in
    a set, must be exactly one value, and the cells become the columns of
    a frame. *)
Definition _from_nested_to_series (x : list series) : result Unnested :=
  match x with
  | [c] => ok (as_ndarray (reshape_column c))
  | data =>
      if negb (length (remove_dups (map length data)) =? 1)
      then raise unequal_length
      else ok (as_DataFrame (transpose (frame_of_rows data)))
  end.

End Unnest.

(** A frame of one row whose cells fill its columns: what one instance is
    re-nested into by the series-to-series transformer. *)
Definition one_row (f : Table series) : Prop :=
  n_rows f = 1 /\ exists cells, rows f = [cells] /\ length cells = n_columns f.

(** * Fixtures

    Concrete panels, objects and stand-ins for the consumed interfaces, on
    which the statements below are evaluated. *)

Module Examples.
Import Utils.

(** Three instances of two variables and two time points each. *)
Definition panel_3x2x2 : Array3 :=
  mkArray3 (3, 2, 2) [ [[1;2];[3;4]] ; [[5;6];[7;8]] ; [[9;10];[11;12]] ]%Z.

(** *** A column transformer whose entries pass their columns through *)

Import ColumnTransformer.

(** The stand-in for the inherited implementation treats every entry as a
    pass-through of the whole input: an entry's output is the input
    itself, described by its type and shape. *)
Definition describe (X : PyInput) : Output :=
  match X with
  | DataFrame df => PdDataFrame (n_rows df) (n_columns df)
  | Ndarray3 a => NdArray [dim0 a; dim1 a; dim2 a]
  | OtherObject => OtherOutput
  end.

Definition is_drop (c : ColumnSpec) : bool :=
  match c with
  | drop => true
  | _ => false
  end.

(** The entries walked over: the fitted ones or the declared ones, the
    dropped ones left out when strings are replaced. *)
Definition iter_entries (b : SkColumnTransformer) (fitted replace_strings : bool)
    : list (string * ColumnSpec * Columns * option Q) :=
  let entries := if fitted then default [] (transformers_ b) else transformers b in
  map (fun '(name, c, cols) => (name, c, cols, None))
      (List.filter (fun '(_, c, _) => negb (replace_strings && is_drop c)) entries).

(** A stand-in for the stacking functions: pandas concatenates nothing
    but Series and DataFrames, and not an empty list; the two others are
    taken not to raise. *)
Definition is_pandas (X : Output) : bool :=
  isinstance X pd_Series || isinstance X pd_DataFrame.

Definition pandas_like : Stackers :=
  mkStackers
    (fun _ => None)
    (fun Xs =>
       match Xs with
       | [] => Some (ValueError "No objects to concatenate")
       | _ =>
           if forallb is_pandas Xs then None
           else Some (TypeError "cannot concatenate object; only Series and DataFrame objs are valid")
       end)
    (fun _ => None).

(** The outputs are validated and stacked through the two hooks the
    class overrides, as the inherited implementation does. *)
Definition stack_outputs (p : bool) (b : SkColumnTransformer) (X : PyInput)
    : result Stacked :=
  let self := mk b p false in
  let Xs := map (fun _ => describe X) (iter_entries b true true) in
  do _ <- _validate_output iter_entries self Xs;
  _hstack pandas_like self Xs.

(** Fitting records the entries and a dense output flag. *)
Definition passthrough_fit_transform (p : bool) (b : SkColumnTransformer)
    (X : PyInput) (y : Target) : SkColumnTransformer * result Stacked :=
  let b' := mkSk (transformers b) (remainder b) (sparse_threshold b) (n_jobs b)
                 (transformer_weights b) (Some (transformers b)) (Some false) in
  (b', stack_outputs p b' X).

Definition passthrough_fit (p : bool) (b : SkColumnTransformer)
    (X : PyInput) (y : Target) : SkColumnTransformer * result unit :=
  let '(b', r) := passthrough_fit_transform p b X y in
  (b', do _ <- r; ok tt).

Definition passthrough_transform (p : bool) (b : SkColumnTransformer)
    (X : PyInput) : SkColumnTransformer * result Stacked :=
  match transformers_ b with
  | None => (b, raise NotFittedError)
  | Some _ => (b, stack_outputs p b X)
  end.

Definition passthrough_ct : t :=
  __init__ [("all", passthrough, [0; 1])] drop (3 # 10) 1 None true.

(** A fitted object whose flag says sparse, a sparse entry and a frame. *)
Definition sparse_ct : t :=
  mk (mkSk [("s", estimator "one_hot", [0]); ("f", passthrough, [1])] drop (3 # 10) 1
           None (Some [("s", estimator "one_hot", [0]); ("f", passthrough, [1])])
           (Some true))
     true true.

Definition sparse_and_frame : list Output :=
  [SparseMatrix 2 10 1; PdDataFrame 2 1].

(** *** Series transformers *)

Import RowTransformer.

Inductive Kind : Type :=
| column_sums
| reversal
| extremes
| plain_function.

(** [seen] is what fitting leaves on the object: the shape it was fitted on. *)
Record SeriesTransformer : Type := mkSeriesTransformer {
  kind : Kind;
  seen : option (nat * nat)
}.

Definition sum_column (a : Table Z) (j : nat) : Z :=
  foldr Z.add 0%Z (map (fun r => nth j r 0%Z) (rows a)).

Definition apply_kind (k : Kind) (a : Table Z) : PyValue :=
  match k with
  | column_sums => Array1 (map (sum_column a) (seq 0 (n_columns a)))
  | reversal => Array2 (mkTable (shape a) (reverse (rows a)))
  | extremes =>
      Array1 [foldr Z.min 0%Z (concat (rows a)); foldr Z.max 0%Z (concat (rows a))]
  | plain_function => Scalar (Z.of_nat (n_rows a))
  end.

#[export] Instance series_transformer : Estimator SeriesTransformer := {
  clone tr := mkSeriesTransformer (kind tr) None;
  fit_transform tr a := (mkSeriesTransformer (kind tr) (Some (shape a)), ok (apply_kind (kind tr) a));
  isinstance tr ty :=
    match kind tr, ty with
    | column_sums, _SeriesToPrimitivesTransformer => true
    | extremes, _SeriesToPrimitivesTransformer => true
    | reversal, _SeriesToSeriesTransformer => true
    | _, _ => false
    end
}.

Definition summer : SeriesTransformer := mkSeriesTransformer column_sums None.
Definition reverser : SeriesTransformer := mkSeriesTransformer reversal None.
Definition min_max : SeriesTransformer := mkSeriesTransformer extremes None.
Definition anonymous : SeriesTransformer := mkSeriesTransformer plain_function None.

Definition fitted_row_transformer (cls : Class_) (tr : SeriesTransformer)
    : RowTransformer.t SeriesTransformer :=
  RowTransformer.mk cls tr true true None.

(** Two instances of three variables and two time points each. *)
Definition panel_2x3x2 : Array3 :=
  mkArray3 (2, 3, 2) [ [[1;2];[3;4];[5;6]] ; [[7;8];[9;10];[11;12]] ]%Z.

End Examples.

Module MoreExamples.
Import Utils Examples.

(** A fitted column transformer whose flag says dense. *)
Definition dense_ct : ColumnTransformer.t :=
  ColumnTransformer.mk
    (ColumnTransformer.mkSk
       [("a", ColumnTransformer.passthrough, [0]); ("b", ColumnTransformer.passthrough, [1])]
       ColumnTransformer.drop (3 # 10) 1 None
       (Some [("a", ColumnTransformer.passthrough, [0]);
              ("b", ColumnTransformer.passthrough, [1])])
       (Some false))
    true true.

(** The two instances of [panel_2x3x2] in the other order. *)
Definition panel_2x3x2_swapped : Array3 :=
  mkArray3 (2, 3, 2) [ [[7;8];[9;10];[11;12]] ; [[1;2];[3;4];[5;6]] ]%Z.

(** [panel_2x3x2] with every series reversed, as a nested frame. *)
Definition reversed_2x3x2 : Table (option series) :=
  mkTable (2, 3)
    [[Some [2; 1]; Some [4; 3]; Some [6; 5]];
     [Some [8; 7]; Some [10; 9]; Some [12; 11]]]%Z.

(** One row of a nested table: two cells of three values. *)
Definition two_cells : list series := [[1; 2; 3]; [4; 5; 6]]%Z.

Import RowTransformer.

(** A series-to-series transformer that keeps the variables which change
    over time: how wide its result is depends on the instance. *)
Record VaryingColumns : Type := mkVaryingColumns {
  fitted_on : option (nat * nat)
}.

Definition varies (values : list Z) : bool :=
  match values with
  | [] => false
  | v :: rest => negb (forallb (Z.eqb v) rest)
  end.

Definition keep_varying (a : Table Z) : Table Z :=
  let kept := List.filter (fun j => varies (map (fun r => nth j r 0%Z) (rows a)))
                          (seq 0 (n_columns a)) in
  mkTable (n_rows a, length kept)
          (map (fun r => map (fun j => nth j r 0%Z) kept) (rows a)).

#[export] Instance varying_columns : Estimator VaryingColumns := {
  clone tr := mkVaryingColumns None;
  fit_transform tr a := (mkVaryingColumns (Some (shape a)), ok (Array2 (keep_varying a)));
  isinstance tr ty :=
    match ty with
    | _SeriesToSeriesTransformer => true
    | _SeriesToPrimitivesTransformer => false
    end
}.

Definition varying : VaryingColumns := mkVaryingColumns None.

(** Two instances of three variables and two time points; the second
    variable of the first instance does not change. *)
Definition ragged_panel : Array3 :=
  mkArray3 (2, 3, 2) [ [[1;2];[3;3];[5;6]] ; [[7;8];[9;10];[11;12]] ]%Z.

(** What [varying] makes of [ragged_panel]: two cells and a missing one
    for the first instance, three cells for the second. *)
Definition ragged_frame : Table (option series) :=
  mkTable (2, 3)
    [[Some [1; 2]; Some [5; 6]; None];
     [Some [7; 8]; Some [9; 10]; Some [11; 12]]]%Z.

(** A template that returns a number float64 cannot hold: 2^53 + 1. *)
Record LargeValue : Type := mkLargeValue {
  used : bool
}.

#[export] Instance large_value : Estimator LargeValue := {
  clone tr := mkLargeValue false;
  fit_transform tr a := (mkLargeValue true, ok (Scalar (2 ^ 53 + 1)%Z));
  isinstance tr ty :=
    match ty with
    | _SeriesToPrimitivesTransformer => true
    | _SeriesToSeriesTransformer => false
    end
}.

End MoreExamples.

(** * Properties *)

(** ** Shapes *)

Lemma has_length_true {A} (n : nat) (l : list A) :
  has_length n l = true <-> length l = n.
Proof. unfold has_length. apply Nat.eqb_eq. Qed.

Lemma well_shaped_rows {A} (t : Table A) :
  well_shaped t = true -> length (rows t) = n_rows t.
Proof.
  unfold well_shaped. intros Hw.
  apply andb_true_iff in Hw as [Hn _]. by apply has_length_true.
Qed.

Lemma well_shaped3_items (a : Array3) :
  well_shaped3 a = true -> length (items a) = dim0 a.
Proof.
  unfold well_shaped3. intros Hw.
  apply andb_true_iff in Hw as [Hn _]. by apply has_length_true.
Qed.

Lemma nested_rows_single (X : Table Z) :
  Forall (fun r => length r = 1) (rows (Utils.from_2d_array_to_nested X)).
Proof.
  unfold Utils.from_2d_array_to_nested. simpl.
  induction (rows X) as [|r l IH]; simpl; constructor; auto.
Qed.

(** ** ColumnConcatenator *)

Module ColumnConcatenatorSpec.
Import Utils ColumnConcatenator Examples.

(** Whatever the concatenator returns has the row count of the table it
    re-nests and one column. *)
Lemma transform_inv (self : t) (X : PyInput) (Xt : Table series) :
  transform self X = ok Xt ->
  _is_fitted self = true /\
  exists P, check_X X = ok P /\ n_rows Xt = n_instances P /\ n_columns Xt = 1.
Proof.
  unfold transform, check_is_fitted.
  destruct (_is_fitted self); [|discriminate]. simpl.
  destruct (check_X X) as [e|P]; [discriminate|]. simpl.
  intros Heq. split; [done|]. exists P. split; [done|].
  destruct P as [df|a]; simpl in Heq.
  - unfold from_nested_to_2d_array in Heq.
    destruct (common_length _); simpl in Heq; [|discriminate].
    injection Heq as <-. done.
  - injection Heq as <-. done.
Qed.

(** C1: on a fitted concatenator every valid panel with N instances, in
    nested or in 3D form and whatever its number of variables, is turned
    into a nested table with exactly N rows and exactly one column. *)
Theorem transform_shape (self : t) (X : PyInput) :
  _is_fitted self = true ->
  valid_panel X = true ->
  exists Xt,
    transform self X = ok Xt
    /\ shape Xt = (input_instances X, 1)
    /\ length (rows Xt) = input_instances X
    /\ Forall (fun r => length r = 1) (rows Xt).
Proof.
  intros Hfit Hvalid. unfold transform, check_is_fitted. rewrite Hfit. simpl.
  destruct X as [df|a|]; simpl in Hvalid; [| |discriminate].
  - apply andb_true_iff in Hvalid as [Hw Heq].
    unfold check_X. rewrite Hw. simpl.
    unfold equal_length in Heq. unfold from_nested_to_2d_array.
    destruct (common_length (concat (rows df))) as [T|]; [|discriminate]. simpl.
    eexists. split; [reflexivity|]. simpl.
    repeat split.
    + rewrite !length_map. by apply well_shaped_rows.
    + apply (nested_rows_single (mkTable (n_rows df, n_columns df * T) _)).
  - unfold check_X. rewrite Hvalid. simpl.
    eexists. split; [reflexivity|]. simpl.
    repeat split.
    + rewrite !length_map. by apply well_shaped3_items.
    + apply (nested_rows_single (from_3d_numpy_to_2d_array a)).
Qed.

Example concatenated_instances :
  transform (mk true) (Ndarray3 panel_3x2x2)
  = ok (mkTable (3, 1) [[[1; 2; 3; 4]]; [[5; 6; 7; 8]]; [[9; 10; 11; 12]]]%Z).
Proof. reflexivity. Qed.

Example unfitted_concatenator_refused :
  transform (mk false) (Ndarray3 panel_3x2x2) = raise NotFittedError.
Proof. reflexivity. Qed.

Lemma transform_shape_witness :
  exists Xt,
    transform (mk true) (Ndarray3 panel_3x2x2) = ok Xt
    /\ shape Xt = (3, 1)
    /\ length (rows Xt) = 3
    /\ Forall (fun r => length r = 1) (rows Xt).
Proof.
  apply (transform_shape (mk true) (Ndarray3 panel_3x2x2)); reflexivity.
Defined.

End ColumnConcatenatorSpec.

(** ** ColumnTransformer *)

Module ColumnTransformerSpec.
Import Utils ColumnTransformer Examples MoreExamples.

(** *** Stacking *)

Lemma hstack_cases (lib : Stackers) (self : t) (Xs : list Output) (flag : bool) :
  sparse_output_ (base self) = Some flag ->
  _hstack lib self Xs =
    if flag then library_call (sparse_hstack_raises lib Xs) (sparse_hstack_tocsr Xs)
    else if preserve_dataframe self
            && (existsb (fun X => isinstance X pd_Series) Xs
                || existsb (fun X => isinstance X pd_DataFrame) Xs)
         then library_call (pd_concat_raises lib Xs) (pd_concat_columns Xs)
         else library_call (np_hstack_raises lib Xs) (np_hstack Xs).
Proof.
  intros Hflag. unfold _hstack. rewrite Hflag. destruct flag; [done|].
  assert (Hmem : forall T, bool_decide (T ∈ remove_dups (map type_of Xs))
                           = existsb (fun X => isinstance X T) Xs).
  { intros T. apply eq_true_iff_eq.
    rewrite bool_decide_eq_true, existsb_exists.
    rewrite elem_of_remove_dups, list_elem_of_fmap. split.
    - intros (X & -> & HX). exists X. split; [by apply list_elem_of_In|].
      unfold isinstance. by apply bool_decide_eq_true.
    - intros (X & HX & Hty). exists X.
      unfold isinstance in Hty. apply bool_decide_eq_true in Hty.
      split; [done|by apply list_elem_of_In]. }
  rewrite !Hmem. by destruct (_ && _).
Qed.

Lemma library_call_sparse (raises : option Exception) (Xs : list Output) (r : Stacked) :
  library_call raises (sparse_hstack_tocsr Xs) = ok r -> is_sparse_result r = true.
Proof. destruct raises; [discriminate|]. by intros [= <-]. Qed.

Lemma library_call_dense (raises : option Exception) (value r : Stacked) :
  is_sparse_result value = false ->
  library_call raises value = ok r -> is_sparse_result r = false.
Proof. intros Hv. destruct raises; [discriminate|]. by intros [= <-]. Qed.

(** C3, as the code has it: [_hstack] follows the stored flag and not
    the entries it is handed.  When [sparse_output_] is True the result
    is what [sparse.hstack(Xs).tocsr()] gives, its exception included,
    whatever [preserve_dataframe] is and whatever the types of the
    entries are; and whenever [_hstack] returns, what it returns is the
    sparse stack exactly when the flag is True. *)
Theorem hstack_sparse_precedence (lib : Stackers) (self : t) (Xs : list Output) :
  (sparse_output_ (base self) = Some true ->
   _hstack lib self Xs
   = library_call (sparse_hstack_raises lib Xs) (sparse_hstack_tocsr Xs)
   /\ forall p f, _hstack lib (mk (base self) p f) Xs = _hstack lib self Xs)
  /\ (forall r, _hstack lib self Xs = ok r ->
      (is_sparse_result r = true <-> sparse_output_ (base self) = Some true)).
Proof.
  split.
  - intros Hflag. split.
    + by rewrite (hstack_cases lib self Xs true Hflag).
    + intros p f. rewrite (hstack_cases lib self Xs true Hflag).
      by rewrite (hstack_cases lib (mk (base self) p f) Xs true Hflag).
  - intros r Hr. destruct (sparse_output_ (base self)) as [[|]|] eqn:Hflag.
    + rewrite (hstack_cases lib self Xs true Hflag) in Hr.
      by rewrite (library_call_sparse _ _ _ Hr).
    + rewrite (hstack_cases lib self Xs false Hflag) in Hr.
      assert (Hdense : is_sparse_result r = false).
      { destruct (_ && _); by eapply library_call_dense; [|exact Hr]. }
      rewrite Hdense. split; discriminate.
    + unfold _hstack in Hr. rewrite Hflag in Hr. discriminate.
Qed.

Lemma hstack_sparse_precedence_witness :
  sparse_output_ (base sparse_ct) = Some true
  /\ preserve_dataframe sparse_ct = true
  /\ _hstack pandas_like sparse_ct sparse_and_frame
     = ok (sparse_hstack_tocsr sparse_and_frame).
Proof.
  split; [reflexivity|]. split; [reflexivity|].
  apply (proj1 (proj1 (hstack_sparse_precedence pandas_like sparse_ct sparse_and_frame)
                  eq_refl)).
Defined.

(** C3, as the claim states it, fails: on an object fitted with a dense
    outcome, entries of which one is sparse and whose overall density is
    below the threshold are not stacked into a sparse matrix, whatever
    the three library calls do. *)
Lemma hstack_follows_stored_flag :
  sparse_output_condition (sparse_threshold (base dense_ct)) sparse_and_frame = true
  /\ existsb (fun X => isinstance X pd_DataFrame) sparse_and_frame = true
  /\ (forall lib r, _hstack lib dense_ct sparse_and_frame = ok r ->
                    is_sparse_result r = false).
Proof.
  split; [reflexivity|]. split; [reflexivity|].
  intros lib r Hr.
  rewrite (hstack_cases lib dense_ct sparse_and_frame false eq_refl) in Hr.
  simpl in Hr.
  exact (library_call_dense _ (pd_concat_columns sparse_and_frame) r eq_refl Hr).
Qed.

(** Without the sparse flag the frame wins when dataframes are preserved,
    and numpy stacks otherwise. *)
Lemma hstack_dense (lib : Stackers) (self : t) (Xs : list Output) :
  sparse_output_ (base self) = Some false ->
  _hstack lib self Xs =
    if preserve_dataframe self
       && (existsb (fun X => isinstance X pd_Series) Xs
           || existsb (fun X => isinstance X pd_DataFrame) Xs)
    then library_call (pd_concat_raises lib Xs) (pd_concat_columns Xs)
    else library_call (np_hstack_raises lib Xs) (np_hstack Xs).
Proof. intros Hflag. by rewrite (hstack_cases lib self Xs false Hflag). Qed.

(** *** Output validation *)

Lemma validate_each_zip (outputs : list Output) (names : list string) :
  length outputs <= length names ->
  match list_find rejected outputs with
  | None => validate_each (zip outputs names) = ok tt
  | Some (i, _) =>
      exists name, names !! i = Some name
        /\ validate_each (zip outputs names) = raise (ValueError (output_message name))
  end.
Proof.
  revert names. induction outputs as [|X outputs IH]; intros names Hlen.
  - reflexivity.
  - destruct names as [|name names]; simpl in Hlen; [lia|].
    cbn [zip zip_with validate_each list_find].
    case_decide as HX.
    + unfold rejected in HX. rewrite HX. simpl. by exists name.
    + unfold rejected in HX. apply not_false_is_true in HX. rewrite HX. simpl.
      specialize (IH names ltac:(lia)).
      destruct (list_find rejected outputs) as [[i Y]|]; simpl; [|done].
      destruct IH as (name' & Hname & Heq). by exists name'.
Qed.

Section Validation.
Variable _iter :
  SkColumnTransformer -> bool -> bool ->
  list (string * ColumnSpec * Columns * option Q).

(** C5: with one fitted entry per output, validation raises exactly when
    some output is neither two-dimensional nor a pandas Series; the error
    is the shape error that names the entry of the first such output; and
    when every output is accepted, validation passes. *)
Theorem validate_output_iff (self : t) (outputs : list Output) :
  length outputs <= length (fitted_names _iter self) ->
  ((exists X, X ∈ outputs /\ accepted_output X = false)
   <-> exists e, _validate_output _iter self outputs = raise e)
  /\ (forall i X,
        outputs !! i = Some X -> accepted_output X = false ->
        (forall j Y, outputs !! j = Some Y -> j < i -> accepted_output Y = true) ->
        exists name, fitted_names _iter self !! i = Some name
          /\ _validate_output _iter self outputs
             = raise (ValueError (output_message name)))
  /\ ((forall X, X ∈ outputs -> accepted_output X = true)
      -> _validate_output _iter self outputs = ok tt).
Proof.
  intros Hlen. unfold _validate_output.
  pose proof (validate_each_zip outputs (fitted_names _iter self) Hlen) as Hv.
  destruct (list_find rejected outputs) as [[i X]|] eqn:Hfind.
  - destruct Hv as (name & Hname & Hv).
    apply list_find_Some in Hfind as (HiX & HX & Hbefore).
    split; [|split].
    + split; [intros _; by eexists|]. intros _. exists X.
      split; [by eapply list_elem_of_lookup_2|done].
    + intros i' X' Hi' HX' Hfirst.
      assert (i' = i) as ->.
      { destruct (Nat.lt_total i' i) as [Hlt|[Heq|Hgt]]; [|done|].
        - exfalso. by apply (Hbefore i' X' Hi' Hlt).
        - specialize (Hfirst i X HiX Hgt). unfold rejected in HX. congruence. }
      by exists name.
    + intros Hall. exfalso.
      assert (HXin : X ∈ outputs) by (by eapply list_elem_of_lookup_2).
      specialize (Hall X HXin). unfold rejected in HX. congruence.
  - apply list_find_None in Hfind.
    assert (Hall : forall X, X ∈ outputs -> accepted_output X = true).
    { intros X HX. rewrite Forall_forall in Hfind. specialize (Hfind X HX).
      unfold rejected in Hfind. by apply not_false_is_true. }
    split; [|split].
    + split.
      * intros (X & HX & Hrej). specialize (Hall X HX). congruence.
      * intros (e & He). rewrite Hv in He. discriminate.
    + intros i X Hi Hrej _. exfalso.
      assert (HXin : X ∈ outputs) by (by eapply list_elem_of_lookup_2).
      specialize (Hall X HXin). congruence.
    + done.
Qed.

End Validation.

(** A 3D array offered as the output of the only entry is refused by name. *)
Lemma validate_output_iff_witness :
  ((exists X, X ∈ [NdArray [3; 2; 2]] /\ accepted_output X = false)
   <-> exists e, _validate_output iter_entries sparse_ct [NdArray [3; 2; 2]] = raise e)
  /\ (forall i X,
        [NdArray [3; 2; 2]] !! i = Some X -> accepted_output X = false ->
        (forall j Y, [NdArray [3; 2; 2]] !! j = Some Y -> j < i -> accepted_output Y = true) ->
        exists name, fitted_names iter_entries sparse_ct !! i = Some name
          /\ _validate_output iter_entries sparse_ct [NdArray [3; 2; 2]]
             = raise (ValueError (output_message name)))
  /\ ((forall X, X ∈ [NdArray [3; 2; 2]] -> accepted_output X = true)
      -> _validate_output iter_entries sparse_ct [NdArray [3; 2; 2]] = ok tt).
Proof.
  apply (validate_output_iff iter_entries sparse_ct [NdArray [3; 2; 2]]).
  vm_compute. lia.
Defined.

(** *** The fitted flag *)

Section Fitting.
Variable sk_fit :
  bool -> SkColumnTransformer -> PyInput -> Target ->
  SkColumnTransformer * result unit.
Variable sk_fit_transform :
  bool -> SkColumnTransformer -> PyInput -> Target ->
  SkColumnTransformer * result Stacked.
Variable sk_transform :
  bool -> SkColumnTransformer -> PyInput ->
  SkColumnTransformer * result Stacked.

Lemma transform_unfitted (self : t) (X : PyInput) :
  _is_fitted self = false ->
  transform sk_transform self X = (self, raise NotFittedError).
Proof. intros Hf. unfold transform, check_is_fitted. by rewrite Hf. Qed.

Lemma fit_flag (self self' : t) (X : PyInput) (y : Target) (r : result unit) :
  fit sk_fit self X y = (self', r) ->
  _is_fitted self' = if is_ok r then true else _is_fitted self.
Proof.
  unfold fit. destruct (check_X_coerce_to_pandas X) as [e|df].
  - intros [= <- <-]. done.
  - destruct (sk_fit _ _ _ _) as [b [e|u]]; intros [= <- <-]; done.
Qed.

Lemma fit_transform_flag (self self' : t) (X : PyInput) (y : Target)
    (r : result Stacked) :
  fit_transform sk_fit_transform self X y = (self', r) ->
  _is_fitted self' = if is_ok r then true else _is_fitted self.
Proof.
  unfold fit_transform.
  destruct (sk_fit_transform _ _ _ _) as [b [e|Xt]]; intros [= <- <-]; done.
Qed.

Lemma transform_flag (self self' : t) (X : PyInput) (r : result Stacked) :
  transform sk_transform self X = (self', r) ->
  _is_fitted self' = _is_fitted self.
Proof.
  unfold transform. destruct (check_is_fitted self); [by intros [= <- <-]|].
  destruct (check_X_coerce_to_pandas X); [by intros [= <- <-]|].
  destruct (sk_transform _ _ _) as [b r']. by intros [= <- <-].
Qed.

(** As long as no fitting call completes, the flag stays as it was. *)
Lemma run_calls_flag (cs : list Call) (self self' : t) :
  run_calls sk_fit sk_fit_transform sk_transform self cs = (self', false) ->
  _is_fitted self' = _is_fitted self.
Proof.
  revert self. induction cs as [|c cs IH]; intros self; simpl.
  - by intros [= <-].
  - destruct (run_call _ _ _ self c) as [s completed] eqn:Hc.
    destruct (run_calls _ _ _ s cs) as [s' later] eqn:Hcs.
    intros [= <- Hnone]. apply orb_false_iff in Hnone as [Hthis ->].
    rewrite (IH s Hcs).
    destruct c as [X y|X y|X]; simpl in Hc, Hthis.
    + destruct (fit sk_fit self X y) as [s0 r] eqn:Hfit.
      injection Hc as <- <-. rewrite (fit_flag _ _ _ _ _ Hfit), Hthis. done.
    + destruct (fit_transform sk_fit_transform self X y) as [s0 r] eqn:Hft.
      injection Hc as <- <-. rewrite (fit_transform_flag _ _ _ _ _ Hft), Hthis. done.
    + destruct (transform sk_transform self X) as [s0 r] eqn:Htr.
      injection Hc as <- <-. by rewrite (transform_flag _ _ _ _ Htr).
Qed.

(** C4: on an object on which, since its construction, no [fit] and no
    [fit_transform] has completed, [transform] raises the not-fitted
    error; it returns no output and leaves the object as it was. *)
Theorem transform_requires_fit
    (transformers : list (string * ColumnSpec * Columns)) (remainder : ColumnSpec)
    (sparse_threshold : Q) (n_jobs : Z) (transformer_weights : option (list (string * Q)))
    (preserve_dataframe : bool) (cs : list Call) (self : t) (X : PyInput) :
  run_calls sk_fit sk_fit_transform sk_transform
    (__init__ transformers remainder sparse_threshold n_jobs transformer_weights
              preserve_dataframe) cs = (self, false) ->
  transform sk_transform self X = (self, raise NotFittedError).
Proof.
  intros Hrun. apply transform_unfitted.
  by rewrite (run_calls_flag _ _ _ Hrun).
Qed.

(** *** [fit_transform] against [fit] followed by [transform] *)

(** [fit_transform] hands its argument to the inherited implementation as
    it is, [fit] and [transform] coerce it first. *)
Lemma fit_transform_unchecked (self : t) (X : PyInput) (y : Target) :
  snd (fit_transform sk_fit_transform self X y)
  = snd (sk_fit_transform (preserve_dataframe self) (base self) X y).
Proof.
  unfold fit_transform.
  by destruct (sk_fit_transform _ _ _ _) as [b [e|Xt]].
Qed.

Lemma fit_checks_input (self : t) (X : PyInput) (y : Target) (e : Exception) :
  check_X_coerce_to_pandas X = raise e ->
  fit_then_transform sk_fit sk_transform self X y = (self, raise e).
Proof. intros Hx. unfold fit_then_transform, fit. by rewrite Hx. Qed.

(** When the inherited [fit] is the inherited [fit_transform] without its
    output and the inherited [transform] repeats that output on the data
    it was fitted on, the two routes agree on every input that the
    coercion leaves alone: a well-formed nested DataFrame. *)
Hypothesis sk_fit_delegates : forall p b X y,
  sk_fit p b X y = (fst (sk_fit_transform p b X y),
                    do _ <- snd (sk_fit_transform p b X y); ok tt).
Hypothesis sk_transform_repeats : forall p b X y b' Xt,
  sk_fit_transform p b X y = (b', ok Xt) -> sk_transform p b' X = (b', ok Xt).

Lemma fit_transform_on_dataframe (self : t) (df : Table series) (y : Target) :
  well_shaped df = true ->
  fit_then_transform sk_fit sk_transform self (DataFrame df) y
  = fit_transform sk_fit_transform self (DataFrame df) y.
Proof.
  intros Hw. unfold fit_then_transform, fit, fit_transform.
  unfold check_X_coerce_to_pandas, check_X. rewrite Hw. simpl.
  rewrite sk_fit_delegates.
  destruct (sk_fit_transform _ _ _ _) as [b [e|Xt]] eqn:Hft; simpl; [done|].
  unfold transform, check_is_fitted. simpl.
  unfold check_X_coerce_to_pandas, check_X. rewrite Hw. simpl.
  by rewrite (sk_transform_repeats _ _ _ _ _ _ Hft).
Qed.

End Fitting.

Lemma transform_requires_fit_witness :
  run_calls passthrough_fit passthrough_fit_transform passthrough_transform
    (__init__ [("all", passthrough, [0; 1])] drop (3 # 10) 1 None true)
    [call_transform (Ndarray3 panel_3x2x2); call_fit OtherObject None]
  = (passthrough_ct, false)
  /\ transform passthrough_transform passthrough_ct (Ndarray3 panel_3x2x2)
     = (passthrough_ct, raise NotFittedError).
Proof.
  split; [reflexivity|].
  apply (transform_requires_fit passthrough_fit passthrough_fit_transform
           passthrough_transform [("all", passthrough, [0; 1])] drop (3 # 10) 1 None true
           [call_transform (Ndarray3 panel_3x2x2); call_fit OtherObject None]).
  reflexivity.
Defined.

(** The pass-through implementation meets both assumptions. *)
Lemma passthrough_fit_delegates p b X y :
  passthrough_fit p b X y
  = (fst (passthrough_fit_transform p b X y),
     do _ <- snd (passthrough_fit_transform p b X y); ok tt).
Proof. reflexivity. Qed.

Lemma passthrough_transform_repeats p b X y b' Xt :
  passthrough_fit_transform p b X y = (b', ok Xt) ->
  passthrough_transform p b' X = (b', ok Xt).
Proof.
  unfold passthrough_fit_transform, passthrough_transform.
  intros [= <- Hout]. simpl. by rewrite Hout.
Qed.

(** On a well-formed nested frame the two routes of the pass-through
    implementation agree. *)
Lemma passthrough_routes_agree (self : t) (df : Table series) (y : Target) :
  well_shaped df = true ->
  fit_then_transform passthrough_fit passthrough_transform self (DataFrame df) y
  = fit_transform passthrough_fit_transform self (DataFrame df) y.
Proof.
  apply fit_transform_on_dataframe.
  - apply passthrough_fit_delegates.
  - apply passthrough_transform_repeats.
Qed.

(** C2, at a 3D array: [fit] followed by [transform] coerces the array
    to a nested frame and returns the stacked frame, while [fit_transform]
    passes the array on unchecked, and the three-dimensional output is
    refused. *)
Theorem fit_transform_skips_coercion :
  snd (fit_then_transform passthrough_fit passthrough_transform
         passthrough_ct (Ndarray3 panel_3x2x2) None)
    = ok (pd_concat_columns [PdDataFrame 3 2])
  /\ snd (fit_transform passthrough_fit_transform
            passthrough_ct (Ndarray3 panel_3x2x2) None)
    = raise (ValueError (output_message "all"))
  /\ _is_fitted (fst (fit_then_transform passthrough_fit passthrough_transform
                        passthrough_ct (Ndarray3 panel_3x2x2) None)) = true
  /\ _is_fitted (fst (fit_transform passthrough_fit_transform
                        passthrough_ct (Ndarray3 panel_3x2x2) None)) = false.
Proof. repeat split; reflexivity. Qed.

End ColumnTransformerSpec.

(** ** Row transformers *)

Module RowTransformerSpec.
Import Utils RowTransformer Examples.
#[local] Open Scope list_scope.

(** *** Lists *)

Lemma map_const_replicate {A B} (b : B) (l : list A) :
  map (fun _ => b) l = replicate (length l) b.
Proof. induction l as [|a l IH]; simpl; [done|by rewrite IH]. Qed.

Lemma insert_at_middle {A} (l1 l2 : list A) (x y : A) (k : nat) :
  length l1 = k -> <[k := y]> (l1 ++ x :: l2) = l1 ++ y :: l2.
Proof.
  intros <-. induction l1 as [|a l1 IH]; simpl; [done|by rewrite IH].
Qed.

Lemma lookup_at_middle {A} (l1 l2 : list A) (x : A) (k : nat) :
  length l1 = k -> (l1 ++ x :: l2) !! k = Some x.
Proof. intros <-. by apply list_lookup_middle. Qed.

(** *** Gathering results *)

Lemma collect_ok_length {A} (rs : list (result A)) (l : list A) :
  collect rs = ok l -> length l = length rs.
Proof.
  revert l. induction rs as [|r rs IH]; intros l; simpl.
  - by intros [= <-].
  - destruct r as [e|a]; simpl; [discriminate|].
    destruct (collect rs) as [e|l']; simpl; [discriminate|].
    intros [= <-]. simpl. by rewrite (IH l').
Qed.

Lemma collect_ok_lookup {A} (rs : list (result A)) (l : list A) (i : nat) :
  collect rs = ok l ->
  rs !! i = (ok <$> l) !! i.
Proof.
  revert l i. induction rs as [|r rs IH]; intros l i; simpl.
  - by intros [= <-].
  - destruct r as [e|a]; simpl; [discriminate|].
    destruct (collect rs) as [e|l'] eqn:Hc; simpl; [discriminate|].
    intros [= <-]. destruct i as [|i]; simpl; [done|]. by apply IH.
Qed.

Lemma collect_all_ok {A} (rs : list (result A)) :
  (forall r, r ∈ rs -> is_ok r = true) -> exists l, collect rs = ok l.
Proof.
  induction rs as [|r rs IH]; intros Hall; simpl.
  - by eexists.
  - destruct r as [e|a].
    + specialize (Hall (inl e) ltac:(left)). discriminate.
    + destruct IH as [l Hl]; [intros r Hr; apply Hall; by right|].
      rewrite Hl. simpl. by eexists.
Qed.

Lemma collect_raises {A} (rs : list (result A)) (e : Exception) :
  collect rs = raise e ->
  exists k, rs !! k = Some (raise e)
    /\ forall j r, j < k -> rs !! j = Some r -> is_ok r = true.
Proof.
  induction rs as [|r rs IH]; simpl; [discriminate|].
  destruct r as [e'|a]; simpl.
  - intros [= ->]. exists 0. split; [done|]. intros j r Hj. lia.
  - destruct (collect rs) as [e'|l] eqn:Hc; simpl; [|discriminate].
    intros [= ->]. destruct (IH eq_refl) as (k & Hk & Hbefore).
    exists (S k). split; [done|].
    intros [|j] r Hj; simpl; [by intros [= <-]|].
    apply Hbefore. lia.
Qed.

Lemma rows_before_collect {A} (row : list series -> result A)
    (insts : list (list series)) (l : list A) :
  collect (map row insts) = ok l -> rows_before row insts = l.
Proof.
  revert l. induction insts as [|inst insts IH]; intros l; simpl.
  - by intros [= <-].
  - destruct (row inst) as [e|a]; simpl; [discriminate|].
    destruct (collect (map row insts)) as [e|l']; simpl; [discriminate|].
    intros [= <-]. by rewrite (IH l').
Qed.

Lemma bind_collect_cons {A} (a : A) (r : result (list A)) :
  (do _ <- (do l <- r; ok (a :: l)); ok tt) = (do _ <- r; ok tt).
Proof. by destruct r. Qed.

(** *** The loops *)

Section Loops.
Context {T : Type} `{Estimator T}.

Lemma set_transformer__again (self : t T) (a b : option (list T)) :
  set_transformer_ (set_transformer_ self a) b = set_transformer_ self b.
Proof. reflexivity. Qed.

Lemma coerced_items (X : PyInput) (X3 : Array3) :
  check_X_coerce_to_numpy X = ok X3 -> length (items X3) = dim0 X3.
Proof.
  unfold check_X_coerce_to_numpy, check_X.
  destruct X as [df|a|]; simpl; [| |discriminate].
  - destruct (well_shaped df) eqn:Hw; simpl; [|discriminate].
    unfold from_nested_to_3d_numpy.
    destruct (common_length _); simpl; [|discriminate].
    intros [= <-]. simpl. by apply well_shaped_rows.
  - destruct (well_shaped3 a) eqn:Hw; simpl; [|discriminate].
    intros [= <-]. by apply well_shaped3_items.
Qed.

(** One step: the clone at the current index is fitted in place. *)
Lemma fit_transform_at_next (self : t T) (X : Array3) (template : T)
    (pre rest : list (list series)) (inst : list series)
    (fitted remaining : list T) :
  items X = pre ++ inst :: rest ->
  length fitted = length pre ->
  fit_transform_at X (length pre)
    (set_transformer_ self (Some (fitted ++ clone template :: remaining)))
  = (set_transformer_ self
       (Some (fitted ++ fst (fit_clone template X inst) :: remaining)),
     snd (fit_clone template X inst)).
Proof.
  intros Hitems Hlen. unfold fit_transform_at, getitem. simpl.
  rewrite (lookup_at_middle _ _ _ _ Hlen).
  rewrite Hitems, (lookup_at_middle _ _ _ _ eq_refl).
  unfold fit_clone, instance_input. simpl.
  destruct (fit_transform (clone template) _) as [c' r]. simpl.
  by rewrite (insert_at_middle _ _ _ _ _ Hlen).
Qed.

Lemma primitives_loop (self : t T) (X : Array3) (N : nat) (template : T)
    (insts pre : list (list series)) (fitted : list T) (done : list (list Z)) :
  items X = pre ++ insts ->
  length fitted = length pre ->
  length done = length pre ->
  for_range (primitives_body X) (seq (length pre) (length insts))
    (set_transformer_ self
       (Some (fitted ++ replicate (length insts) (clone template))),
     mkTable (N, dim1 X)
       (done ++ replicate (length insts) (replicate (dim1 X) 0%Z)))
  = ((set_transformer_ self
        (Some (fitted ++ clones_after template X (primitives_row template X) insts)),
      mkTable (N, dim1 X)
        (done ++ rows_before (primitives_row template X) insts
         ++ replicate (length insts
                       - length (rows_before (primitives_row template X) insts))
                      (replicate (dim1 X) 0%Z))),
     do _ <- collect (map (primitives_row template X) insts); ok tt).
Proof.
  revert pre fitted done.
  induction insts as [|inst insts IH]; intros pre fitted done Hitems Hf Hd.
  - reflexivity.
  - cbn [length seq for_range primitives_body replicate].
    rewrite (fit_transform_at_next self X template pre insts inst fitted _ Hitems Hf).
    cbn [clones_after rows_before map collect].
    assert (Hrow : primitives_row template X inst
                   = do value <- snd (fit_clone template X inst);
                     assigned_row (dim1 X) value) by reflexivity.
    rewrite !Hrow. clear Hrow.
    destruct (fit_clone template X inst) as [c' [e|value]]; cbn [fst snd bind].
    + rewrite map_const_replicate. reflexivity.
    + unfold setitem. cbn [n_columns shape snd].
      destruct (assigned_row (dim1 X) value) as [e|row]; cbn [bind is_ok].
      * rewrite map_const_replicate. reflexivity.
      * cbn [rows shape]. rewrite (insert_at_middle _ _ _ _ _ Hd).
        specialize (IH (pre ++ [inst]) (fitted ++ [c']) (done ++ [row])).
        rewrite !length_app in IH. cbn [length] in IH.
        rewrite !Nat.add_1_r in IH. rewrite <- !app_assoc in IH. cbn [app] in IH.
        rewrite IH; [|exact Hitems|lia|lia].
        cbn [length]. rewrite Nat.sub_succ.
        by rewrite bind_collect_cons.
Qed.

Lemma series_loop (self : t T) (X : Array3) (template : T)
    (insts pre : list (list series)) (fitted : list T) (done : list (Table series)) :
  items X = pre ++ insts ->
  length fitted = length pre ->
  for_range (series_body X) (seq (length pre) (length insts))
    (set_transformer_ self
       (Some (fitted ++ replicate (length insts) (clone template))),
     done)
  = ((set_transformer_ self
        (Some (fitted ++ clones_after template X (series_row template X) insts)),
      done ++ rows_before (series_row template X) insts),
     do _ <- collect (map (series_row template X) insts); ok tt).
Proof.
  revert pre fitted done.
  induction insts as [|inst insts IH]; intros pre fitted done Hitems Hf.
  - cbn. by rewrite !app_nil_r.
  - cbn [length seq for_range series_body replicate].
    rewrite (fit_transform_at_next self X template pre insts inst fitted _ Hitems Hf).
    cbn [clones_after rows_before map collect].
    assert (Hrow : series_row template X inst
                   = do xt <- snd (fit_clone template X inst); nest_instance xt)
      by reflexivity.
    rewrite !Hrow. clear Hrow.
    destruct (fit_clone template X inst) as [c' [e|xt]]; cbn [fst snd bind].
    + rewrite map_const_replicate, app_nil_r. reflexivity.
    + destruct (nest_instance xt) as [e|row]; cbn [bind is_ok].
      * rewrite map_const_replicate, app_nil_r. reflexivity.
      * specialize (IH (pre ++ [inst]) (fitted ++ [c']) (done ++ [row])).
        rewrite !length_app in IH. cbn [length] in IH.
        rewrite !Nat.add_1_r in IH. rewrite <- !app_assoc in IH. cbn [app] in IH.
        rewrite IH; [|exact Hitems|lia].
        by rewrite bind_collect_cons.
Qed.

(** *** What [transform] computes

    Under the three conditions that let [_prepare] pass, each transform is
    the instance-by-instance computation: the rows in the order of the
    instances, or the first exception in that order; and the clones it
    leaves on the object. *)

Lemma prepare_run (self : t T) (X : PyInput) (X3 : Array3) :
  prepared self X X3 ->
  _prepare self X
  = (set_transformer_ self (Some (replicate (dim0 X3) (clone (transformer self)))),
     ok X3).
Proof.
  intros (Hfit & Hcheck & HX). unfold _prepare, check_is_fitted.
  rewrite Hfit, Hcheck, HX.
  by rewrite map_const_replicate, length_seq.
Qed.

Lemma transform_primitives_run (self : t T) (X : PyInput) (X3 : Array3) :
  prepared self X X3 ->
  transform_primitives self X
  = (set_transformer_ self
       (Some (clones_after (transformer self) X3
                (primitives_row (transformer self) X3) (items X3))),
     do rows <- collect (map (primitives_row (transformer self) X3) (items X3));
     ok (mkTable (dim0 X3, dim1 X3) rows)).
Proof.
  intros Hp. unfold transform_primitives. rewrite (prepare_run self X X3 Hp).
  destruct Hp as (_ & _ & HX). pose proof (coerced_items X X3 HX) as Hlen.
  pose proof (primitives_loop self X3 (dim0 X3) (transformer self) (items X3)
                [] [] [] eq_refl eq_refl eq_refl) as Hloop.
  cbn [length app] in Hloop. rewrite Hlen in Hloop.
  unfold np_zeros. cbn [fst snd]. rewrite Hloop. clear Hloop.
  destruct (collect (map _ (items X3))) as [e|l] eqn:Hc; cbn [bind]; [done|].
  rewrite (rows_before_collect _ _ _ Hc).
  apply collect_ok_length in Hc. rewrite length_map, Hlen in Hc.
  rewrite Hc, Nat.sub_diag. cbn [replicate]. by rewrite app_nil_r.
Qed.

Lemma transform_series_run (self : t T) (X : PyInput) (X3 : Array3) :
  prepared self X X3 ->
  transform_series self X
  = (set_transformer_ self
       (Some (clones_after (transformer self) X3
                (series_row (transformer self) X3) (items X3))),
     do xts <- collect (map (series_row (transformer self) X3) (items X3));
     pd_concat_rows xts).
Proof.
  intros Hp. unfold transform_series. rewrite (prepare_run self X X3 Hp).
  destruct Hp as (_ & _ & HX). pose proof (coerced_items X X3 HX) as Hlen.
  pose proof (series_loop self X3 (transformer self) (items X3)
                [] [] [] eq_refl eq_refl) as Hloop.
  cbn [length app] in Hloop. rewrite Hlen in Hloop.
  rewrite Hloop. clear Hloop.
  destruct (collect (map _ (items X3))) as [e|l] eqn:Hc; cbn [bind]; [done|].
  by rewrite (rows_before_collect _ _ _ Hc).
Qed.

(** The clones the loop leaves behind: one per instance. *)
Lemma clones_after_length {A} (template : T) (X : Array3)
    (row : list series -> result A) (insts : list (list series)) :
  length (clones_after template X row insts) = length insts.
Proof.
  induction insts as [|inst insts IH]; simpl; [done|].
  destruct (is_ok (row inst)); [by rewrite IH|by rewrite length_map].
Qed.

(** When no instance raises, the clone at every index is the one fitted
    on the instance at that index. *)
Lemma clones_after_ok {A} (template : T) (X : Array3)
    (row : list series -> result A) (insts : list (list series)) (l : list A) :
  collect (map row insts) = ok l ->
  clones_after template X row insts
  = map (fun inst => fst (fit_clone template X inst)) insts.
Proof.
  revert l. induction insts as [|inst insts IH]; intros l; simpl; [done|].
  destruct (row inst) as [e|a]; simpl; [discriminate|].
  destruct (collect (map row insts)) as [e|l'] eqn:Hc; simpl; [discriminate|].
  intros _. by rewrite (IH l').
Qed.

(** When an instance raises, the clones of the instances after it are
    still the untouched clones of the template. *)
Lemma clones_after_raise {A} (template : T) (X : Array3)
    (row : list series -> result A) (insts : list (list series))
    (k j : nat) (inst : list series) :
  insts !! k = Some inst -> is_ok (row inst) = false ->
  (forall i inst', i < k -> insts !! i = Some inst' -> is_ok (row inst') = true) ->
  k < j -> j < length insts ->
  clones_after template X row insts !! j = Some (clone template).
Proof.
  revert k j. induction insts as [|inst0 insts IH]; intros k j Hk Hbad Hbefore Hkj Hj.
  - simpl in Hj. lia.
  - destruct j as [|j]; [lia|]. simpl in Hj. cbn [clones_after lookup list_lookup].
    destruct k as [|k].
    + injection Hk as ->. rewrite Hbad.
      rewrite map_const_replicate. apply lookup_replicate_2. lia.
    + rewrite (Hbefore 0 inst0 ltac:(lia) eq_refl).
      apply (IH k j); [exact Hk|exact Hbad| |lia|lia].
      intros i inst' Hi Hinst'. apply (Hbefore (S i) inst'); [lia|exact Hinst'].
Qed.

End Loops.

(** *** Shapes of the rows *)

Lemma broadcast_values_length (D : nat) (values row : list Z) :
  broadcast_values D values = ok row -> length row = D.
Proof.
  unfold broadcast_values. destruct (length values =? D) eqn:Hlen.
  - intros [= <-]. by apply Nat.eqb_eq.
  - destruct values as [|v [|w values]]; [discriminate| |discriminate].
    intros [= <-]. apply length_replicate.
Qed.

Lemma broadcast_row_length (D : nat) (value : PyValue) (row : list Z) :
  broadcast_row D value = ok row -> length row = D.
Proof.
  destruct value as [v|values|a]; simpl.
  - intros [= <-]. apply length_replicate.
  - apply broadcast_values_length.
  - destruct (rows a) as [|values [|r l]]; [discriminate| |discriminate].
    apply broadcast_values_length.
Qed.

Lemma to_float64_length (values row : list Z) :
  to_float64 values = ok row -> length row = length values.
Proof.
  revert row. induction values as [|v values IH]; intros row; simpl.
  - by intros [= <-].
  - destruct (float64 v) as [e|x]; simpl; [discriminate|].
    destruct (to_float64 values) as [e|l]; simpl; [discriminate|].
    intros [= <-]. simpl. by rewrite (IH l).
Qed.

Lemma assigned_row_length (D : nat) (value : PyValue) (row : list Z) :
  assigned_row D value = ok row -> length row = D.
Proof.
  unfold assigned_row.
  destruct (broadcast_row D value) as [e|values] eqn:Hb; simpl; [discriminate|].
  intros Hrow. rewrite (to_float64_length _ _ Hrow).
  by apply (broadcast_row_length D value).
Qed.

Lemma nest_instance_single (xt : PyValue) (frame : Table series) :
  nest_instance xt = ok frame -> exists cells, rows frame = [cells].
Proof.
  destruct xt as [v|values|a]; simpl; [discriminate|discriminate|].
  intros [= <-]. by eexists.
Qed.

Lemma concat_single_rows {A} (frames : list (Table A)) (i : nat)
    (frame : Table A) (cells : list A) :
  Forall (fun f => exists c, rows f = [c]) frames ->
  frames !! i = Some frame -> rows frame = [cells] ->
  concat (map rows frames) !! i = Some cells.
Proof.
  intros Hall. revert i. induction Hall as [|f frames [c Hc] Hall IH]; intros i.
  - discriminate.
  - simpl. rewrite Hc. destruct i as [|i]; simpl.
    + intros [= ->] Hcells. congruence.
    + apply IH.
Qed.

Section Claims.
Context {T : Type} `{Estimator T}.

(** C7: without an override the factory builds the series-to-series row
    transformer for a template of the series-to-series class and the
    series-to-primitives one for a template of the series-to-primitives
    class (the first test wins for a template of both); an override
    outside the two names raises the configuration error; and a template
    of neither class without override raises the type error.  An override
    among the two names decides the class by itself. *)
Theorem make_row_transformer_cases (transformer : T) (kwargs : option bool) :
  (isinstance transformer _SeriesToSeriesTransformer = true ->
   make_row_transformer transformer None kwargs
   = ok (mk SeriesToSeriesRowTransformer transformer (default true kwargs) false None))
  /\ (isinstance transformer _SeriesToSeriesTransformer = false ->
      isinstance transformer _SeriesToPrimitivesTransformer = true ->
      make_row_transformer transformer None kwargs
      = ok (mk SeriesToPrimitivesRowTransformer transformer (default true kwargs)
               false None))
  /\ (forall ty : string,
        ty <> "series-to-series" -> ty <> "series-to-primitives" ->
        make_row_transformer transformer (Some ty) kwargs
        = raise invalid_transformer_type)
  /\ (isinstance transformer _SeriesToSeriesTransformer = false ->
      isinstance transformer _SeriesToPrimitivesTransformer = false ->
      make_row_transformer transformer None kwargs = raise type_not_understood)
  /\ make_row_transformer transformer (Some "series-to-series") kwargs
     = ok (mk SeriesToSeriesRowTransformer transformer (default true kwargs) false None)
  /\ make_row_transformer transformer (Some "series-to-primitives") kwargs
     = ok (mk SeriesToPrimitivesRowTransformer transformer (default true kwargs)
              false None).
Proof.
  unfold make_row_transformer. repeat split.
  - intros ->. reflexivity.
  - intros -> ->. reflexivity.
  - intros ty Hs Hp. rewrite bool_decide_eq_false_2; [done|].
    unfold valid_transformer_types. rewrite !elem_of_cons, elem_of_nil. tauto.
  - intros -> ->. reflexivity.
Qed.

(** C6, as the code has it: the constructor accepts every template, with
    the check enabled or not; the check is made when [transform] is
    called on the fitted object, and then an enabled check on a template
    that is not of the class's transformer type raises the type error
    that names that type, before anything is cloned; with the check
    disabled no template is refused. *)
Theorem type_checked_in_transform :
  (forall (cls : Class_) (transformer : T) (check_transformer : bool),
     __init__ cls transformer check_transformer
     = ok (mk cls transformer check_transformer false None))
  /\ (forall (self : t T) (X : PyInput),
        _is_fitted self = true ->
        check_transformer self = true ->
        isinstance (transformer self) (_valid_transformer_type (cls self)) = false ->
        transform self X
        = (self, raise (TypeError ("transformer must be a "
                                   ++ __name__ (_valid_transformer_type (cls self)))%string)))
  /\ (forall (self : t T), check_transformer self = false -> _check_transformer self = ok tt).
Proof.
  split; [done|]. split.
  - intros self X Hfit Hcheck Hinst.
    unfold transform, transform_primitives, transform_series, _prepare,
      check_is_fitted, _check_transformer.
    rewrite Hfit, Hcheck, Hinst. simpl. by destruct (cls self).
  - intros self Hcheck. unfold _check_transformer. by rewrite Hcheck.
Qed.

(** C9, as the code has it: [_prepare] stores a fresh list of clones, one
    per instance, in [transformer_], whatever was there before; the loop
    fits them in place; and the list stays on the object after the call.
    After a call that returned, the clone at index i is the one fitted on
    instance i. *)
Theorem clones_kept_after_transform (self : t T) (X : PyInput) (X3 : Array3) :
  prepared self X X3 ->
  (exists ts, transformer_ (fst (transform self X)) = Some ts
     /\ length ts = dim0 X3
     /\ (is_ok (snd (transform self X)) = true ->
         forall i inst, items X3 !! i = Some inst ->
         ts !! i = Some (fst (fit_transform (clone (transformer self))
                                (instance_input X3 inst)))))
  /\ (forall old, fst (transform (set_transformer_ self old) X) = fst (transform self X)).
Proof.
  intros Hp.
  assert (Hp' : forall old, prepared (set_transformer_ self old) X X3).
  { intros old. destruct Hp as (? & ? & ?). by split. }
  pose proof (coerced_items X X3 (proj2 (proj2 Hp))) as Hlen.
  split.
  - unfold transform. destruct (cls self) eqn:Hcls.
    + rewrite (transform_primitives_run self X X3 Hp). cbn [fst snd].
      eexists. split; [reflexivity|]. split.
      * by rewrite clones_after_length.
      * intros Hok i inst Hi.
        destruct (collect (map _ (items X3))) as [e|l] eqn:Hc; [discriminate|].
        rewrite (clones_after_ok _ _ _ _ _ Hc), list_lookup_fmap, Hi. done.
    + rewrite (transform_series_run self X X3 Hp). cbn [fst snd].
      eexists. split; [reflexivity|]. split.
      * by rewrite clones_after_length.
      * intros Hok i inst Hi.
        destruct (collect (map _ (items X3))) as [e|l] eqn:Hc; [discriminate|].
        rewrite (clones_after_ok _ _ _ _ _ Hc), list_lookup_fmap, Hi. done.
  - intros old. unfold transform. cbn [cls set_transformer_].
    destruct (cls self).
    + by rewrite (transform_primitives_run _ X X3 (Hp' old)),
        (transform_primitives_run self X X3 Hp).
    + by rewrite (transform_series_run _ X X3 (Hp' old)),
        (transform_series_run self X X3 Hp).
Qed.

(** C10: the table returned by the series-to-primitives transformer has
    the shape (N, D) of the input's first two axes, every row holding D
    values, whatever the template returns; and when the value some
    instance yields cannot be broadcast into a row of length D, the call
    raises.  A one-dimensional value of a length other than D and 1 is
    such a value. *)
Theorem primitives_output_columns (self : t T) (X : PyInput) (X3 : Array3) :
  prepared self X X3 ->
  (forall Xt, snd (transform_primitives self X) = ok Xt ->
     shape Xt = (dim0 X3, dim1 X3)
     /\ length (rows Xt) = dim0 X3
     /\ Forall (fun row => length row = dim1 X3) (rows Xt))
  /\ (forall i inst value,
        items X3 !! i = Some inst ->
        snd (fit_transform (clone (transformer self)) (instance_input X3 inst)) = ok value ->
        is_ok (broadcast_row (dim1 X3) value) = false ->
        is_ok (snd (transform_primitives self X)) = false)
  /\ (forall values,
        length values <> dim1 X3 -> length values <> 1 ->
        broadcast_row (dim1 X3) (Array1 values) = raise broadcast_error).
Proof.
  intros Hp. rewrite (transform_primitives_run self X X3 Hp). cbn [snd].
  pose proof (coerced_items X X3 (proj2 (proj2 Hp))) as Hlen.
  split; [|split].
  - intros Xt HXt.
    destruct (collect (map _ (items X3))) as [e|l] eqn:Hc; [discriminate|].
    injection HXt as <-. cbn [shape rows]. split; [done|]. split.
    + apply collect_ok_length in Hc. by rewrite Hc, length_map.
    + apply Forall_lookup. intros j row Hj.
      pose proof (collect_ok_lookup _ _ j Hc) as Hrow.
      rewrite !list_lookup_fmap, Hj in Hrow.
      destruct (items X3 !! j) as [inst|]; [|discriminate]. injection Hrow as Hrow.
      unfold primitives_row in Hrow.
      destruct (snd (fit_clone _ _ _)) as [e|value]; [discriminate|].
      by apply (assigned_row_length _ value).
  - intros i inst value Hi Hvalue Hbad.
    destruct (collect (map _ (items X3))) as [e|l] eqn:Hc; [done|]. exfalso.
    pose proof (collect_ok_lookup _ _ i Hc) as Hrow.
    rewrite !list_lookup_fmap, Hi in Hrow. cbn in Hrow.
    destruct (l !! i) as [row|]; [|discriminate]. injection Hrow as Hrow.
    unfold primitives_row, fit_clone in Hrow. rewrite Hvalue in Hrow.
    cbn [bind] in Hrow. unfold assigned_row in Hrow.
    destruct (broadcast_row (dim1 X3) value); [discriminate Hrow|discriminate Hbad].
  - intros values HD H1. cbn. unfold broadcast_values.
    rewrite (proj2 (Nat.eqb_neq _ _) HD).
    destruct values as [|v [|w values]]; [done| |done]. simpl in H1. lia.
Qed.

(** When an instance raises, the loop has gone no further: the clones of
    the later instances were never fitted. *)
Lemma transform_stops_at_first_failure (self : t T) (X : PyInput) (X3 : Array3)
    (k j : nat) (inst : list series) :
  prepared self X X3 ->
  items X3 !! k = Some inst ->
  is_ok (primitives_row (transformer self) X3 inst) = false ->
  (forall i inst', i < k -> items X3 !! i = Some inst' ->
                   is_ok (primitives_row (transformer self) X3 inst') = true) ->
  k < j -> j < dim0 X3 ->
  exists ts, transformer_ (fst (transform_primitives self X)) = Some ts
    /\ ts !! j = Some (clone (transformer self)).
Proof.
  intros Hp Hk Hbad Hbefore Hkj Hj.
  pose proof (coerced_items X X3 (proj2 (proj2 Hp))) as Hlen.
  rewrite (transform_primitives_run self X X3 Hp). cbn [fst].
  eexists. split; [reflexivity|].
  apply (clones_after_raise _ _ _ _ k j inst); [done..|lia].
Qed.

End Claims.

(** *** On the example transformers *)

Example column_sums_of_each_instance :
  snd (transform_primitives
         (fitted_row_transformer SeriesToPrimitivesRowTransformer summer)
         (Ndarray3 panel_2x3x2))
  = ok (mkTable (2, 3) [[3; 7; 11]; [15; 19; 23]]%Z).
Proof. reflexivity. Qed.

Example reversed_series_of_each_instance :
  snd (transform_series
         (fitted_row_transformer SeriesToSeriesRowTransformer reverser)
         (Ndarray3 panel_2x3x2))
  = ok (mkTable (2, 3)
          [[Some [2; 1]; Some [4; 3]; Some [6; 5]];
           [Some [8; 7]; Some [10; 9]; Some [12; 11]]]%Z).
Proof. reflexivity. Qed.

Example unfitted_row_transformer_refused :
  snd (transform (RowTransformer.mk SeriesToPrimitivesRowTransformer summer true false None)
                 (Ndarray3 panel_2x3x2))
  = raise NotFittedError.
Proof. reflexivity. Qed.

Lemma summer_prepared :
  prepared (fitted_row_transformer SeriesToPrimitivesRowTransformer summer)
           (Ndarray3 panel_2x3x2) panel_2x3x2.
Proof. by repeat split. Qed.

Lemma reverser_prepared :
  prepared (fitted_row_transformer SeriesToSeriesRowTransformer reverser)
           (Ndarray3 panel_2x3x2) panel_2x3x2.
Proof. by repeat split. Qed.

Lemma min_max_prepared :
  prepared (fitted_row_transformer SeriesToPrimitivesRowTransformer min_max)
           (Ndarray3 panel_2x3x2) panel_2x3x2.
Proof. by repeat split. Qed.

Lemma make_row_transformer_cases_witness :
  make_row_transformer reverser None None
  = ok (RowTransformer.mk SeriesToSeriesRowTransformer reverser true false None)
  /\ make_row_transformer summer None (Some false)
     = ok (RowTransformer.mk SeriesToPrimitivesRowTransformer summer false false None)
  /\ make_row_transformer summer (Some "series_to_series") None
     = raise invalid_transformer_type
  /\ make_row_transformer anonymous None None = raise type_not_understood.
Proof.
  split; [|split; [|split]].
  - apply (make_row_transformer_cases reverser None); reflexivity.
  - apply (make_row_transformer_cases summer (Some false)); reflexivity.
  - apply (make_row_transformer_cases summer None); discriminate.
  - apply (make_row_transformer_cases anonymous None); reflexivity.
Defined.

(** C6, as the claim states it, fails: a series-to-series template is
    accepted by the constructor of the series-to-primitives row
    transformer with the check enabled. *)
Lemma construction_accepts_mismatch :
  isinstance reverser (_valid_transformer_type SeriesToPrimitivesRowTransformer) = false
  /\ __init__ SeriesToPrimitivesRowTransformer reverser true
     = ok (RowTransformer.mk SeriesToPrimitivesRowTransformer reverser true false None)
  /\ ~ (exists msg, __init__ SeriesToPrimitivesRowTransformer reverser true
                    = raise (TypeError msg)).
Proof. repeat split. intros [msg Hmsg]. discriminate. Qed.

Lemma type_checked_in_transform_witness :
  transform (fitted_row_transformer SeriesToPrimitivesRowTransformer reverser)
            (Ndarray3 panel_2x3x2)
  = (fitted_row_transformer SeriesToPrimitivesRowTransformer reverser,
     raise (TypeError "transformer must be a _SeriesToPrimitivesTransformer")).
Proof.
  apply (proj1 (proj2 (@type_checked_in_transform SeriesTransformer _))); reflexivity.
Defined.

(** C9, as the claim states it, fails: after a call that returned, the
    object holds the two clones fitted on the two instances. *)
Lemma clones_persist_after_transform :
  is_ok (snd (transform (fitted_row_transformer SeriesToPrimitivesRowTransformer summer)
                        (Ndarray3 panel_2x3x2))) = true
  /\ transformer_ (fst (transform
                          (fitted_row_transformer SeriesToPrimitivesRowTransformer summer)
                          (Ndarray3 panel_2x3x2)))
     = Some [mkSeriesTransformer column_sums (Some (2, 3));
             mkSeriesTransformer column_sums (Some (2, 3))]
  /\ ~ holds_no_clone
         (fst (transform (fitted_row_transformer SeriesToPrimitivesRowTransformer summer)
                         (Ndarray3 panel_2x3x2))).
Proof.
  split; [reflexivity|]. split; [reflexivity|].
  intros [Hnone|Hnil]; discriminate.
Qed.

Lemma clones_kept_after_transform_witness :
  prepared (fitted_row_transformer SeriesToSeriesRowTransformer reverser)
           (Ndarray3 panel_2x3x2) panel_2x3x2
  /\ exists ts,
       transformer_ (fst (transform
                            (fitted_row_transformer SeriesToSeriesRowTransformer reverser)
                            (Ndarray3 panel_2x3x2))) = Some ts
       /\ length ts = 2.
Proof.
  split; [exact reverser_prepared|].
  destruct (proj1 (clones_kept_after_transform _ _ _ reverser_prepared))
    as (ts & Hts & Hlen & _).
  exists ts. split; [exact Hts|exact Hlen].
Defined.

Lemma primitives_output_columns_witness :
  prepared (fitted_row_transformer SeriesToPrimitivesRowTransformer min_max)
           (Ndarray3 panel_2x3x2) panel_2x3x2
  /\ is_ok (snd (transform_primitives
                   (fitted_row_transformer SeriesToPrimitivesRowTransformer min_max)
                   (Ndarray3 panel_2x3x2))) = false.
Proof.
  split; [exact min_max_prepared|].
  apply (proj1 (proj2 (primitives_output_columns _ _ _ min_max_prepared))
           0 [[1;2];[3;4];[5;6]]%Z (Array1 [0; 6]%Z)); reflexivity.
Defined.

End RowTransformerSpec.

(** ** Un-nesting one row *)

Module UnnestSpec.
Import Utils RowTransformer Unnest MoreExamples.
#[local] Open Scope list_scope.

Lemma map_nth_seq_all {A} (d : A) (l : list A) (n : nat) :
  length l = n -> map (fun j => nth j l d) (seq 0 n) = l.
Proof.
  revert n. induction l as [|a l IH]; intros n <-; simpl; [done|].
  f_equal. rewrite <- seq_shift, map_map. by apply IH.
Qed.

Lemma nth_of_column (j : nat) (rows : list (list Z)) (i : nat) :
  nth i (map (fun r => nth j r 0%Z) rows) 0%Z = nth j (nth i rows []) 0%Z.
Proof.
  rewrite <- (map_nth (fun r => nth j r 0%Z) rows [] i). by destruct j.
Qed.

(** Transposing keeps a table well formed, and transposing twice gives
    the table back. *)
Lemma transpose_well_shaped (a : Table Z) :
  length (rows a) = n_rows a -> well_shaped (transpose a) = true.
Proof.
  intros Hrows. unfold well_shaped, transpose, n_rows, n_columns, has_length. simpl.
  rewrite length_map, length_seq, Nat.eqb_refl. simpl.
  apply forallb_forall. intros r Hr. apply in_map_iff in Hr as (j & <- & _).
  rewrite length_map. by apply Nat.eqb_eq.
Qed.

Lemma transpose_involutive (a : Table Z) :
  well_shaped a = true -> transpose (transpose a) = a.
Proof.
  destruct a as [[R C] rs]. unfold well_shaped, n_rows, n_columns. simpl.
  intros Hw. apply andb_true_iff in Hw as [HR HC].
  apply has_length_true in HR.
  unfold transpose, n_rows, n_columns. simpl. f_equal.
  transitivity (map (fun i => nth i rs []) (seq 0 R));
    [|by apply map_nth_seq_all].
  apply map_ext_in. intros i Hi. apply in_seq in Hi.
  rewrite map_map.
  rewrite <- (map_nth_seq_all 0%Z (nth i rs []) C).
  - apply map_ext. intros j. apply nth_of_column.
  - rewrite forallb_forall in HC. apply has_length_true, HC, nth_In. lia.
Qed.

(** A set of numbers has one element exactly when the list it was made
    from is not empty and repeats one number. *)
Lemma one_length (l : list nat) :
  length (remove_dups l) = 1 <-> l <> [] /\ exists n, Forall (eq n) l.
Proof.
  split.
  - intros Hone. destruct (remove_dups l) as [|n [|m k]] eqn:Hd; try discriminate.
    split.
    + intros ->. discriminate.
    + exists n. apply Forall_forall. intros m Hm.
      apply elem_of_remove_dups in Hm. rewrite Hd in Hm.
      apply list_elem_of_singleton in Hm. done.
  - intros [Hne [n Hall]]. induction l as [|a l IH]; [done|].
    apply Forall_cons in Hall as [<- Hall]. simpl.
    destruct l as [|b l].
    + reflexivity.
    + case_decide as Hin.
      * apply IH; [done|exact Hall].
      * exfalso. apply Hin. apply Forall_cons in Hall as [<- _]. left.
Qed.

Lemma same_lengths (x : list series) :
  length (remove_dups (map length x)) = 1
  <-> x <> [] /\ exists T, Forall (fun c => length c = T) x.
Proof.
  rewrite one_length. split.
  - intros [Hne [T Hall]]. split; [by destruct x|].
    exists T. apply Forall_forall. intros c Hc.
    rewrite Forall_forall in Hall. symmetry. apply Hall.
    apply list_elem_of_fmap. by exists c.
  - intros [Hne [T Hall]]. split; [by destruct x|].
    exists T. apply Forall_forall. intros n Hn.
    apply list_elem_of_fmap in Hn as (c & -> & Hc).
    rewrite Forall_forall in Hall. symmetry. by apply Hall.
Qed.

(** X1: when the helper returns, all cells of the row have one length T,
    the table returned has T rows and one column per cell, it is well
    formed, and transposing it gives back the cells: column d of the
    result is cell d. *)
Theorem unnest_transposes_cells (x : list series) (u : Unnested) :
  _from_nested_to_series x = ok u ->
  exists T,
    Forall (fun c => length c = T) x
    /\ shape (table_of u) = (T, length x)
    /\ well_shaped (table_of u) = true
    /\ rows (transpose (table_of u)) = x.
Proof.
  destruct x as [|c [|c' x']].
  - discriminate.
  - intros [= <-]. exists (length c). simpl. repeat split.
    + by repeat constructor.
    + unfold well_shaped, n_rows, n_columns, has_length. simpl.
      rewrite length_map, Nat.eqb_refl. simpl.
      apply forallb_forall. intros r Hr. by apply in_map_iff in Hr as (v & <- & _).
    + unfold transpose, n_columns. simpl. rewrite map_map. simpl. by rewrite map_id.
  - unfold _from_nested_to_series.
    destruct (length (remove_dups _) =? 1) eqn:Hone; simpl; [|discriminate].
    intros [= <-]. apply Nat.eqb_eq in Hone.
    apply same_lengths in Hone as [_ [T Hall]].
    assert (HT : length c = T) by (by apply Forall_cons in Hall as [? _]).
    exists T. cbn [table_of]. split; [exact Hall|].
    assert (Hw : well_shaped (frame_of_rows (c :: c' :: x')) = true).
    { unfold well_shaped. apply andb_true_iff. split.
      - by apply has_length_true.
      - apply forallb_forall. intros r Hr. apply has_length_true.
        unfold n_columns, frame_of_rows. cbn [shape snd map head default].
        rewrite HT. rewrite Forall_forall in Hall. apply Hall.
        by apply list_elem_of_In. }
    split; [|split].
    + unfold frame_of_rows, transpose, n_rows, n_columns.
      cbn [shape fst snd map head default]. by rewrite HT.
    + by apply transpose_well_shaped.
    + change (rows (transpose (transpose (frame_of_rows (c :: c' :: x'))))
              = c :: c' :: x').
      by rewrite (transpose_involutive _ Hw).
Qed.

(** X2: the helper raises exactly when the row has no cell or its cells
    differ in length; a row of one cell is never refused; and the only
    exception it raises is the unequal-length one. *)
Theorem unnest_refuses_unequal_lengths (x : list series) :
  (is_ok (_from_nested_to_series x) = false
   <-> x = [] \/ ~ exists T, Forall (fun c => length c = T) x)
  /\ (forall e, _from_nested_to_series x = raise e -> e = unequal_length).
Proof.
  destruct x as [|c [|c' x']].
  - split; [|by intros e [= <-]]. split; [by left|done].
  - split; [|discriminate]. split; [discriminate|].
    intros [Hnil|Hno]; [discriminate|]. exfalso. apply Hno.
    exists (length c). by repeat constructor.
  - unfold _from_nested_to_series.
    destruct (length (remove_dups _) =? 1) eqn:Hone; simpl.
    + split; [|discriminate]. split; [discriminate|].
      intros [Hnil|Hno]; [discriminate|]. exfalso. apply Hno.
      apply Nat.eqb_eq in Hone. by apply same_lengths in Hone as [_ ?].
    + split; [|by intros e [= <-]]. split; [|done].
      intros _. right. intros Hsame. apply Nat.eqb_neq in Hone. apply Hone.
      apply same_lengths. split; [done|exact Hsame].
Qed.

Lemma unnest_transposes_cells_witness :
  _from_nested_to_series two_cells
  = ok (as_DataFrame (mkTable (3, 2) [[1; 4]; [2; 5]; [3; 6]]%Z))
  /\ exists T,
       Forall (fun c => length c = T) two_cells
       /\ shape (mkTable (3, 2) [[1; 4]; [2; 5]; [3; 6]]%Z) = (T, length two_cells)
       /\ well_shaped (mkTable (3, 2) [[1; 4]; [2; 5]; [3; 6]]%Z) = true
       /\ rows (transpose (mkTable (3, 2) [[1; 4]; [2; 5]; [3; 6]]%Z)) = two_cells.
Proof.
  split; [reflexivity|].
  apply (unnest_transposes_cells two_cells
           (as_DataFrame (mkTable (3, 2) [[1; 4]; [2; 5]; [3; 6]]%Z))).
  reflexivity.
Defined.

End UnnestSpec.

(** ** ColumnTransformer: further properties *)

Module ColumnTransformerMore.
Import Utils ColumnTransformer Examples MoreExamples ColumnTransformerSpec.
#[local] Open Scope list_scope.

(** *** The flags over a run of calls *)

Section Runs.
Variable sk_fit :
  bool -> SkColumnTransformer -> PyInput -> Target ->
  SkColumnTransformer * result unit.
Variable sk_fit_transform :
  bool -> SkColumnTransformer -> PyInput -> Target ->
  SkColumnTransformer * result Stacked.
Variable sk_transform :
  bool -> SkColumnTransformer -> PyInput ->
  SkColumnTransformer * result Stacked.

Lemma fit_keeps_preserve (self : t) (X : PyInput) (y : Target) :
  preserve_dataframe (fst (fit sk_fit self X y)) = preserve_dataframe self.
Proof.
  unfold fit. destruct (check_X_coerce_to_pandas X); [done|].
  by destruct (sk_fit _ _ _ _) as [b [e|u]].
Qed.

Lemma fit_transform_keeps_preserve (self : t) (X : PyInput) (y : Target) :
  preserve_dataframe (fst (fit_transform sk_fit_transform self X y))
  = preserve_dataframe self.
Proof.
  unfold fit_transform. by destruct (sk_fit_transform _ _ _ _) as [b [e|Xt]].
Qed.

Lemma transform_keeps_preserve (self : t) (X : PyInput) :
  preserve_dataframe (fst (transform sk_transform self X)) = preserve_dataframe self.
Proof.
  unfold transform. destruct (check_is_fitted self); [done|].
  destruct (check_X_coerce_to_pandas X); [done|].
  by destruct (sk_transform _ _ _) as [b r].
Qed.

Lemma run_call_flags (self : t) (c : Call) :
  _is_fitted (fst (run_call sk_fit sk_fit_transform sk_transform self c))
  = _is_fitted self
    || (is_fitting_call c
        && snd (run_call sk_fit sk_fit_transform sk_transform self c))
  /\ preserve_dataframe (fst (run_call sk_fit sk_fit_transform sk_transform self c))
     = preserve_dataframe self.
Proof.
  destruct c as [X y|X y|X]; simpl.
  - pose proof (fit_keeps_preserve self X y) as Hp.
    destruct (fit sk_fit self X y) as [s r] eqn:Hfit. simpl in *.
    rewrite (fit_flag _ _ _ _ _ _ Hfit). split; [|done].
    destruct (is_ok r); [by rewrite orb_true_r|by rewrite orb_false_r].
  - pose proof (fit_transform_keeps_preserve self X y) as Hp.
    destruct (fit_transform sk_fit_transform self X y) as [s r] eqn:Hft. simpl in *.
    rewrite (fit_transform_flag _ _ _ _ _ _ Hft). split; [|done].
    destruct (is_ok r); [by rewrite orb_true_r|by rewrite orb_false_r].
  - pose proof (transform_keeps_preserve self X) as Hp.
    destruct (transform sk_transform self X) as [s r] eqn:Htr. simpl in *.
    rewrite (transform_flag _ _ _ _ _ Htr). split; [|done].
    by rewrite orb_false_r.
Qed.

(** X3: over any sequence of [fit], [fit_transform] and [transform]
    calls, the object is fitted afterwards exactly when it was fitted
    before or some [fit] or [fit_transform] of the sequence completed: a
    failed call never resets the flag, and [transform] never sets it.  The
    dataframe flag is not touched by any call. *)
Theorem fitted_flag_after_calls (cs : list Call) (self : t) :
  _is_fitted (fst (run_calls sk_fit sk_fit_transform sk_transform self cs))
  = _is_fitted self || snd (run_calls sk_fit sk_fit_transform sk_transform self cs)
  /\ preserve_dataframe (fst (run_calls sk_fit sk_fit_transform sk_transform self cs))
     = preserve_dataframe self.
Proof.
  revert self. induction cs as [|c cs IH]; intros self; simpl.
  - by rewrite orb_false_r.
  - destruct (run_call_flags self c) as [Hflag Hp].
    destruct (run_call _ _ _ self c) as [s completed]. simpl in Hflag, Hp.
    destruct (IH s) as [Hflag' Hp'].
    destruct (run_calls _ _ _ s cs) as [s' later]. simpl in *.
    rewrite Hflag', Hflag, Hp', Hp. split; [|done].
    by rewrite orb_assoc.
Qed.

(** *** The two routes *)

Hypothesis sk_fit_delegates : forall p b X y,
  sk_fit p b X y = (fst (sk_fit_transform p b X y),
                    do _ <- snd (sk_fit_transform p b X y); ok tt).
Hypothesis sk_transform_repeats : forall p b X y b' Xt,
  sk_fit_transform p b X y = (b', ok Xt) -> sk_transform p b' X = (b', ok Xt).

(** X6: when the inherited [fit] is the inherited [fit_transform] without
    its output and the inherited [transform] repeats that output on the
    data it was fitted on, [fit] followed by [transform] on an input is
    [fit_transform] on the nested frame the input is coerced to, result
    and object alike; an input the coercion refuses is refused. *)
Theorem fit_then_transform_on_coercion (self : t) (X : PyInput) (y : Target) :
  fit_then_transform sk_fit sk_transform self X y
  = match check_X_coerce_to_pandas X with
    | inl e => (self, raise e)
    | inr df => fit_transform sk_fit_transform self (DataFrame df) y
    end.
Proof.
  unfold fit_then_transform, fit, fit_transform.
  destruct (check_X_coerce_to_pandas X) as [e|df] eqn:HX; [done|].
  rewrite sk_fit_delegates.
  destruct (sk_fit_transform _ _ _ _) as [b [e|Xt]] eqn:Hft; simpl; [done|].
  unfold transform, check_is_fitted. simpl. rewrite HX.
  by rewrite (sk_transform_repeats _ _ _ _ _ _ Hft).
Qed.

End Runs.

Lemma fit_then_transform_on_coercion_witness :
  fit_then_transform passthrough_fit passthrough_transform passthrough_ct
    (Ndarray3 panel_3x2x2) None
  = fit_transform passthrough_fit_transform passthrough_ct
      (DataFrame (from_3d_numpy_to_nested panel_3x2x2)) None.
Proof.
  apply (fit_then_transform_on_coercion passthrough_fit passthrough_fit_transform
           passthrough_transform passthrough_fit_delegates
           passthrough_transform_repeats passthrough_ct (Ndarray3 panel_3x2x2) None).
Defined.

(** *** Validation and the names *)

Lemma zip_take_names {A B} (l : list A) (k : list B) :
  zip l k = zip (take (length k) l) k.
Proof.
  revert k. induction l as [|a l IH]; intros [|b k]; simpl; try done.
  by rewrite <- IH.
Qed.

Section Names.
Variable _iter :
  SkColumnTransformer -> bool -> bool ->
  list (string * ColumnSpec * Columns * option Q).

(** X4: the outputs are paired with the names of the fitted entries, so
    an output beyond the last name is never looked at: validation of a
    list of outputs is validation of its first outputs, as many as there
    are names. *)
Theorem validate_output_ignores_unnamed (self : t) (outputs : list Output) :
  _validate_output _iter self outputs
  = _validate_output _iter self (take (length (fitted_names _iter self)) outputs).
Proof. unfold _validate_output. by rewrite <- zip_take_names. Qed.

End Names.

End ColumnTransformerMore.

(** ** Row transformers: further properties *)

Module RowTransformerMore.
Import Utils RowTransformer Examples MoreExamples RowTransformerSpec.
#[local] Open Scope list_scope.

Lemma concat_singletons {A} (l : list A) : concat (map (fun r => [r]) l) = l.
Proof. induction l as [|a l IH]; simpl; [done|by rewrite IH]. Qed.

Lemma le_foldr_max (n : nat) (l : list nat) : n ∈ l -> n <= foldr Nat.max 0 l.
Proof.
  induction l as [|m l IH]; intros Hn.
  - by apply elem_of_nil in Hn.
  - simpl. apply elem_of_cons in Hn as [->|Hn]; [lia|]. specialize (IH Hn). lia.
Qed.

Lemma pad_row_length (width : nat) (row : list series) :
  length row <= width -> length (pad_row width row) = width.
Proof.
  intros Hle. unfold pad_row. rewrite length_app, length_map, length_replicate. lia.
Qed.

Lemma nest_instance_one_row (xt : PyValue) (f : Table series) :
  nest_instance xt = ok f -> one_row f.
Proof.
  destruct xt as [v|values|a]; simpl; [discriminate|discriminate|].
  intros [= <-]. split; [done|]. eexists. split; [reflexivity|].
  unfold from_2d_array_to_nested, transpose, n_rows, n_columns. simpl.
  by rewrite concat_singletons, length_map, length_seq.
Qed.

(** *** What the clones are handed and what the rows hold *)

Lemma common_length_all (cells : list series) (T : nat) :
  common_length cells = Some T -> Forall (fun c => length c = T) cells.
Proof.
  destruct cells as [|c cs]; simpl; [constructor|].
  destruct (forallb (has_length (length c)) cs) eqn:Hall; [|discriminate].
  intros [= <-]. constructor; [done|].
  apply Forall_forall. intros c' Hc'. rewrite forallb_forall in Hall.
  apply has_length_true, Hall. by apply list_elem_of_In.
Qed.

(** The array a panel is coerced to fills its shape. *)
Lemma coerced_well_shaped (X : PyInput) (X3 : Array3) :
  check_X_coerce_to_numpy X = ok X3 -> well_shaped3 X3 = true.
Proof.
  unfold check_X_coerce_to_numpy, check_X.
  destruct X as [df|a|]; simpl; [| |discriminate].
  - destruct (well_shaped df) eqn:Hw; simpl; [|discriminate].
    unfold from_nested_to_3d_numpy.
    destruct (common_length (concat (rows df))) as [T|] eqn:HT; simpl; [|discriminate].
    intros [= <-]. apply common_length_all in HT. rewrite Forall_forall in HT.
    unfold well_shaped in Hw. apply andb_true_iff in Hw as [HN HD].
    unfold well_shaped3, dim0, dim1, dim2. simpl.
    apply andb_true_iff. split; [exact HN|].
    apply forallb_forall. intros inst Hinst. apply andb_true_iff. split.
    + rewrite forallb_forall in HD. by apply HD.
    + apply forallb_forall. intros c Hc. apply has_length_true, HT.
      apply list_elem_of_In, in_concat. by exists inst.
  - destruct (well_shaped3 a) eqn:Hw; simpl; [|discriminate]. by intros [= <-].
Qed.

Lemma well_shaped3_instance (X3 : Array3) (i : nat) (inst : list series) :
  well_shaped3 X3 = true -> items X3 !! i = Some inst ->
  length inst = dim1 X3 /\ Forall (fun r => length r = dim2 X3) inst.
Proof.
  unfold well_shaped3. intros Hw Hi. apply andb_true_iff in Hw as [_ Hall].
  rewrite forallb_forall in Hall.
  specialize (Hall inst ltac:(eapply list_elem_of_In, list_elem_of_lookup_2; exact Hi)).
  apply andb_true_iff in Hall as [HD HT]. split; [by apply has_length_true|].
  apply Forall_forall. intros r Hr. rewrite forallb_forall in HT.
  by apply has_length_true, HT, list_elem_of_In.
Qed.

(** [X[i].T] has the time axis first: its row at time t holds, at
    position d, the value of variable d at time t. *)
Lemma instance_input_entries (X3 : Array3) (inst : list series) :
  length inst = dim1 X3 -> Forall (fun r => length r = dim2 X3) inst ->
  shape (instance_input X3 inst) = (dim2 X3, dim1 X3)
  /\ length (rows (instance_input X3 inst)) = dim2 X3
  /\ forall d t r v, inst !! d = Some r -> r !! t = Some v ->
       exists row, rows (instance_input X3 inst) !! t = Some row
                   /\ length row = dim1 X3
                   /\ row !! d = Some v.
Proof.
  intros HD HT. unfold instance_input, transpose, n_rows, n_columns.
  cbn [shape rows fst snd]. split; [done|].
  split; [by rewrite length_map, length_seq|].
  intros d t r v Hd Ht.
  assert (Hlt : t < dim2 X3).
  { rewrite Forall_forall in HT.
    rewrite <- (HT r ltac:(eapply list_elem_of_lookup_2; exact Hd)).
    by eapply lookup_lt_Some. }
  eexists. split; [|split].
  - rewrite list_lookup_fmap, lookup_seq_lt; [reflexivity|exact Hlt].
  - by rewrite length_map.
  - unfold series in *. etrans; [apply list_lookup_fmap|]. rewrite Hd. cbn.
    f_equal. by apply nth_lookup_Some.
Qed.

(** A number of magnitude below 2^53 is held by float64 as it is. *)
Lemma float64_exact (v : Z) : (Z.abs v < 2 ^ 53)%Z -> float64 v = ok v.
Proof.
  unfold float64, round_to_53_bits. intros Hv.
  rewrite (proj2 (Z.ltb_lt _ _) Hv).
  replace (Z.sgn v * Z.abs v)%Z with v by lia.
  assert (Hbig : (Z.abs v < 2 ^ 1024)%Z).
  { eapply Z.lt_trans; [exact Hv|]. by vm_compute. }
  by rewrite (proj2 (Z.ltb_lt _ _) Hbig).
Qed.

Lemma to_float64_exact (values : list Z) :
  Forall (fun v => (Z.abs v < 2 ^ 53)%Z) values -> to_float64 values = ok values.
Proof.
  induction 1 as [|v values Hv Hall IH]; simpl; [done|].
  by rewrite (float64_exact v Hv), IH.
Qed.

Lemma replicate_exact (D : nat) (v : Z) :
  (Z.abs v < 2 ^ 53)%Z -> Forall (fun v => (Z.abs v < 2 ^ 53)%Z) (replicate D v).
Proof. intros Hv. apply Forall_forall. intros w Hw. by apply elem_of_replicate in Hw as [-> _]. Qed.

(** The entries of a converted list are the conversions of the entries. *)
Lemma to_float64_entries (values row : list Z) :
  to_float64 values = ok row ->
  length row = length values
  /\ forall d v, values !! d = Some v -> exists x, float64 v = ok x /\ row !! d = Some x.
Proof.
  revert row. induction values as [|v values IH]; intros row; simpl.
  - intros [= <-]. split; [done|]. intros d v. discriminate.
  - destruct (float64 v) as [e|x] eqn:Hx; simpl; [discriminate|].
    destruct (to_float64 values) as [e|l]; simpl; [discriminate|].
    intros [= <-]. destruct (IH l eq_refl) as [Hlen Hent]. split; [simpl; by rewrite Hlen|].
    intros [|d] w; simpl.
    + intros [= <-]. by exists x.
    + apply Hent.
Qed.

(** What a row holds for the values a template may return. *)
Lemma assigned_row_cases (D : nat) (value : PyValue) (row : list Z) :
  assigned_row D value = ok row ->
  (forall values, value = Array1 values -> length values = D ->
     forall d v, values !! d = Some v -> exists x, float64 v = ok x /\ row !! d = Some x)
  /\ (forall values, value = Array1 values -> length values = D ->
       Forall (fun v => (Z.abs v < 2 ^ 53)%Z) values -> row = values)
  /\ (forall v, value = Scalar v -> (Z.abs v < 2 ^ 53)%Z -> row = replicate D v)
  /\ (forall v, value = Array1 [v] -> (Z.abs v < 2 ^ 53)%Z -> row = replicate D v)
  /\ (forall a values, value = Array2 a -> rows a = [values] -> length values = D ->
       Forall (fun v => (Z.abs v < 2 ^ 53)%Z) values -> row = values).
Proof.
  intros Hrow. unfold assigned_row in Hrow. repeat split.
  - intros values -> Hlen. simpl in Hrow. unfold broadcast_values in Hrow.
    rewrite (proj2 (Nat.eqb_eq _ _) Hlen) in Hrow. simpl in Hrow.
    apply (to_float64_entries values row Hrow).
  - intros values -> Hlen Hex. simpl in Hrow. unfold broadcast_values in Hrow.
    rewrite (proj2 (Nat.eqb_eq _ _) Hlen) in Hrow. simpl in Hrow.
    rewrite (to_float64_exact _ Hex) in Hrow. by injection Hrow.
  - intros v -> Hex. simpl in Hrow.
    rewrite (to_float64_exact _ (replicate_exact D v Hex)) in Hrow. by injection Hrow.
  - intros v -> Hex. simpl in Hrow. unfold broadcast_values in Hrow.
    destruct (length [v] =? D) eqn:Hlen; simpl in Hrow.
    + apply Nat.eqb_eq in Hlen. simpl in Hlen. subst D.
      rewrite (float64_exact v Hex) in Hrow. by injection Hrow.
    + rewrite (to_float64_exact _ (replicate_exact D v Hex)) in Hrow. by injection Hrow.
  - intros a values -> Hrows Hlen Hex. simpl in Hrow. rewrite Hrows in Hrow.
    unfold broadcast_values in Hrow.
    rewrite (proj2 (Nat.eqb_eq _ _) Hlen) in Hrow. simpl in Hrow.
    rewrite (to_float64_exact _ Hex) in Hrow. by injection Hrow.
Qed.

(** The cells an instance is re-nested into are the columns of its
    transformed table: cell d holds, at time t, the entry at row t and
    column d. *)
Lemma nest_instance_cells (a : Table Z) :
  exists cells,
    nest_instance (Array2 a)
    = ok (mkTable (1, n_columns a) [cells])
    /\ length cells = n_columns a
    /\ forall t d r v, rows a !! t = Some r -> r !! d = Some v -> d < n_columns a ->
         exists cell, cells !! d = Some cell /\ cell !! t = Some v.
Proof.
  eexists. split; [|split].
  - unfold nest_instance, transpose_nested, from_2d_array_to_nested, transpose,
      n_rows, n_columns. cbn [shape rows fst snd].
    rewrite concat_singletons. reflexivity.
  - by rewrite length_map, length_seq.
  - intros t d r v Ht Hd Hlt. eexists. split.
    + etrans; [apply list_lookup_fmap|]. rewrite lookup_seq_lt; [reflexivity|exact Hlt].
    + etrans; [apply list_lookup_fmap|]. rewrite Ht. cbn. f_equal.
      by apply nth_lookup_Some.
Qed.

Lemma foldr_max_attained (l : list nat) : l <> [] -> foldr Nat.max 0 l ∈ l.
Proof.
  induction l as [|n l IH]; [done|]. intros _. simpl.
  destruct l as [|m l]; [simpl; rewrite Nat.max_0_r; left|].
  specialize (IH ltac:(done)).
  destruct (Nat.max_spec n (foldr Nat.max 0 (m :: l))) as [[_ ->]|[_ ->]];
    [by right|left].
Qed.

Lemma pd_concat_rows_ok (l : list (Table series)) (Xt : Table (option series)) :
  pd_concat_rows l = ok Xt ->
  l <> []
  /\ Xt = mkTable (sum_list (map n_rows l), foldr Nat.max 0 (map n_columns l))
                  (map (pad_row (foldr Nat.max 0 (map n_columns l)))
                       (concat (map rows l))).
Proof. destruct l as [|f l]; [discriminate|]. by intros [= <-]. Qed.

Section More.
Context {T : Type} `{Estimator T}.

Lemma set_transformer__same (self : t T) :
  set_transformer_ self (transformer_ self) = self.
Proof. by destruct self. Qed.

Lemma prepare_cases (self : t T) (X : PyInput) :
  (exists X3, prepared self X X3) \/ (exists e, _prepare self X = (self, raise e)).
Proof.
  unfold prepared, _prepare, check_is_fitted.
  destruct (_is_fitted self); [|right; by eexists].
  destruct (_check_transformer self) as [e|[]]; [right; by eexists|].
  destruct (check_X_coerce_to_numpy X) as [e|X3]; [right; by eexists|].
  left. by exists X3.
Qed.

Lemma transform_unprepared (self : t T) (X : PyInput) (e : Exception) :
  _prepare self X = (self, raise e) -> transform self X = (self, raise e).
Proof.
  intros Hp. unfold transform, transform_primitives, transform_series.
  rewrite Hp. by destruct (cls self).
Qed.

Lemma prepared_whatever_clones (self : t T) (X : PyInput) (X3 : Array3)
    (ts : option (list T)) :
  prepared self X X3 -> prepared (set_transformer_ self ts) X X3.
Proof. intros (? & ? & ?). by split. Qed.

(** The object a transform leaves is the object it started from with
    another list of clones. *)
Lemma transform_frame (self : t T) (X : PyInput) :
  exists ts, fst (transform self X) = set_transformer_ self ts.
Proof.
  destruct (prepare_cases self X) as [[X3 Hp]|[e He]].
  - unfold transform. destruct (cls self).
    + rewrite (transform_primitives_run self X X3 Hp). by eexists.
    + rewrite (transform_series_run self X X3 Hp). by eexists.
  - rewrite (transform_unprepared self X e He). exists (transformer_ self).
    by rewrite set_transformer__same.
Qed.

(** X7: whatever the input and whether the call returns or raises,
    [transform] changes nothing of the object but [transformer_]: the
    template [transformer] stays as it was (it is never fitted, only its
    clones are), and so do the class, the checking flag and the fitted
    flag. *)
Theorem transform_leaves_template (self : t T) (X : PyInput) :
  transformer (fst (transform self X)) = transformer self
  /\ cls (fst (transform self X)) = cls self
  /\ check_transformer (fst (transform self X)) = check_transformer self
  /\ _is_fitted (fst (transform self X)) = _is_fitted self.
Proof. destruct (transform_frame self X) as [ts ->]. done. Qed.

(** X8: [transform] keeps no memory of earlier calls: calling it again
    on the object it left, with the same input, gives the same result
    and leaves the same object. *)
Theorem transform_repeatable (self : t T) (X : PyInput) :
  transform (fst (transform self X)) X = transform self X.
Proof.
  destruct (prepare_cases self X) as [[X3 Hp]|[e He]].
  - destruct (transform_frame self X) as [ts ->].
    pose proof (prepared_whatever_clones self X X3 ts Hp) as Hp'.
    unfold transform. cbn [cls set_transformer_]. destruct (cls self).
    + by rewrite (transform_primitives_run _ X X3 Hp'),
        (transform_primitives_run self X X3 Hp).
    + by rewrite (transform_series_run _ X X3 Hp'),
        (transform_series_run self X X3 Hp).
  - rewrite (transform_unprepared self X e He). cbn [fst].
    by rewrite (transform_unprepared self X e He).
Qed.

Lemma primitives_row_dims (template : T) (X3 Y3 : Array3) (inst : list series) :
  dim1 X3 = dim1 Y3 -> dim2 X3 = dim2 Y3 ->
  primitives_row template X3 inst = primitives_row template Y3 inst.
Proof.
  intros H1 H2. unfold primitives_row, fit_clone, instance_input. by rewrite H1, H2.
Qed.

Lemma primitives_row_at (self : t T) (X : PyInput) (X3 : Array3) (Xt : Table Z)
    (i : nat) (inst : list series) :
  prepared self X X3 ->
  snd (transform_primitives self X) = ok Xt ->
  items X3 !! i = Some inst ->
  ok <$> rows Xt !! i = Some (primitives_row (transformer self) X3 inst).
Proof.
  intros Hp HXt Hi. rewrite (transform_primitives_run self X X3 Hp) in HXt.
  cbn [snd] in HXt.
  destruct (collect (map _ (items X3))) as [e|l] eqn:Hc; [discriminate|].
  injection HXt as <-. cbn [rows].
  pose proof (collect_ok_lookup _ _ i Hc) as Hrow.
  rewrite !list_lookup_fmap, Hi in Hrow. cbn in Hrow. symmetry. exact Hrow.
Qed.

(** X9: in the series-to-primitives transformer the row of an instance
    depends on that instance alone: two panels of the same variable and
    time counts that hold the same instance, at whatever positions and
    among whatever other instances, get the same row for it. *)
Theorem primitives_row_is_local (self : t T) (X Y : PyInput) (X3 Y3 : Array3)
    (Xt Yt : Table Z) (i j : nat) (inst : list series) :
  prepared self X X3 -> prepared self Y Y3 ->
  dim1 X3 = dim1 Y3 -> dim2 X3 = dim2 Y3 ->
  snd (transform_primitives self X) = ok Xt ->
  snd (transform_primitives self Y) = ok Yt ->
  items X3 !! i = Some inst -> items Y3 !! j = Some inst ->
  rows Xt !! i = rows Yt !! j /\ is_Some (rows Xt !! i).
Proof.
  intros HpX HpY H1 H2 HXt HYt Hi Hj.
  pose proof (primitives_row_at self X X3 Xt i inst HpX HXt Hi) as HX.
  pose proof (primitives_row_at self Y Y3 Yt j inst HpY HYt Hj) as HY.
  rewrite (primitives_row_dims _ X3 Y3 inst H1 H2) in HX.
  destruct (rows Xt !! i) as [r|]; [|discriminate].
  destruct (rows Yt !! j) as [r'|]; [|discriminate].
  split; [|by eexists]. simpl in HX, HY. congruence.
Qed.

(** X10: a row transformer made by the factory without an override
    passes its own type check, with the check enabled or not, so the
    type error of [_check_transformer] cannot come from it; it holds the
    template it was given, is not fitted and holds no clone. *)
Theorem factory_result_passes_check (transformer0 : T) (kwargs : option bool)
    (self : t T) :
  make_row_transformer transformer0 None kwargs = ok self ->
  _check_transformer self = ok tt
  /\ transformer self = transformer0
  /\ check_transformer self = default true kwargs
  /\ _is_fitted self = false
  /\ transformer_ self = None.
Proof.
  unfold make_row_transformer.
  destruct (isinstance transformer0 _SeriesToSeriesTransformer) eqn:Hs; simpl.
  - intros [= <-]. unfold _check_transformer. simpl. rewrite Hs.
    by rewrite andb_false_r.
  - destruct (isinstance transformer0 _SeriesToPrimitivesTransformer) eqn:Hp; simpl;
      [|discriminate].
    intros [= <-]. unfold _check_transformer. simpl. rewrite Hp.
    by rewrite andb_false_r.
Qed.

(** X11: an override forces the class but not the check: a row
    transformer made with an override and the check left enabled, for a
    template that is not of the forced class's transformer type, is
    built without complaint, and once fitted its [transform] raises the
    type error naming that type. *)
Theorem forced_variant_is_checked (transformer0 : T) (ty : string) (self : t T)
    (X0 X : PyInput) :
  make_row_transformer transformer0 (Some ty) None = ok self ->
  isinstance transformer0 (_valid_transformer_type (cls self)) = false ->
  transform (fit self X0) X
  = (fit self X0,
     raise (TypeError ("transformer must be a "
                       ++ __name__ (_valid_transformer_type (cls self)))%string)).
Proof.
  unfold make_row_transformer.
  destruct (bool_decide (ty ∈ valid_transformer_types)); simpl; [|discriminate].
  destruct (String.eqb ty "series-to-series"); intros [= <-]; simpl; intros Hinst;
    unfold transform, transform_primitives, transform_series, _prepare,
      check_is_fitted, _check_transformer, fit; simpl; by rewrite Hinst.
Qed.

Lemma collected_frames (template : T) (X3 : Array3) (insts : list (list series))
    (l : list (Table series)) :
  collect (map (series_row template X3) insts) = ok l -> Forall one_row l.
Proof.
  revert l. induction insts as [|inst insts IH]; intros l; simpl.
  - intros [= <-]. constructor.
  - destruct (series_row template X3 inst) as [e|f] eqn:Hf; simpl; [discriminate|].
    destruct (collect (map _ insts)) as [e|l']; simpl; [discriminate|].
    intros [= <-]. constructor; [|by apply IH].
    unfold series_row in Hf.
    destruct (snd (fit_clone template X3 inst)) as [e|xt]; [discriminate|].
    by apply (nest_instance_one_row xt).
Qed.

Lemma one_row_frames (l : list (Table series)) :
  Forall one_row l ->
  sum_list (map n_rows l) = length l
  /\ length (concat (map rows l)) = length l
  /\ Forall (fun cells => length cells <= foldr Nat.max 0 (map n_columns l))
            (concat (map rows l)).
Proof.
  induction 1 as [|f l [Hn (cells & Hcells & Hlen)] Hall (IH1 & IH2 & IH3)]; simpl.
  - repeat split. constructor.
  - rewrite Hn, Hcells, IH1. simpl. rewrite IH2. repeat split.
    constructor; [lia|]. eapply Forall_impl; [exact IH3|]. simpl. lia.
Qed.

Lemma series_row_cells (template : T) (X3 : Array3) (inst : list series)
    (f : Table series) :
  series_row template X3 inst = ok f ->
  exists a cells,
    snd (fit_transform (clone template) (instance_input X3 inst)) = ok (Array2 a)
    /\ f = mkTable (1, n_columns a) [cells]
    /\ length cells = n_columns a
    /\ forall t d r v, rows a !! t = Some r -> r !! d = Some v -> d < n_columns a ->
         exists cell, cells !! d = Some cell /\ cell !! t = Some v.
Proof.
  unfold series_row, fit_clone.
  destruct (snd (fit_transform _ _)) as [e|[v|values|a]]; try discriminate.
  cbn [bind]. intros Hf.
  destruct (nest_instance_cells a) as (cells & Hn & Hlen & Hcells).
  rewrite Hn in Hf. injection Hf as <-. by exists a, cells.
Qed.

Lemma collected_lookup {A} (row : list series -> result A)
    (insts : list (list series)) (l : list A) (i : nat) :
  collect (map row insts) = ok l ->
  (forall inst, insts !! i = Some inst -> exists a, l !! i = Some a /\ row inst = ok a)
  /\ (forall a, l !! i = Some a -> exists inst, insts !! i = Some inst /\ row inst = ok a).
Proof.
  intros Hc. pose proof (collect_ok_lookup _ _ i Hc) as Hi.
  rewrite !list_lookup_fmap in Hi. split.
  - intros inst Hinst. rewrite Hinst in Hi.
    destruct (l !! i) as [a|]; [|discriminate]. injection Hi as Hi. by exists a.
  - intros a Ha. rewrite Ha in Hi.
    destruct (insts !! i) as [inst|]; [|discriminate]. injection Hi as Hi. by exists inst.
Qed.

(** The row of an instance in the frame of the series-to-series
    transformer: its cells, then missing cells up to the width. *)
Lemma series_row_at (self : t T) (X : PyInput) (X3 : Array3)
    (Xt : Table (option series)) (i : nat) (inst : list series) :
  prepared self X X3 ->
  snd (transform_series self X) = ok Xt ->
  items X3 !! i = Some inst ->
  exists a cells,
    snd (fit_transform (clone (transformer self)) (instance_input X3 inst))
    = ok (Array2 a)
    /\ n_columns a <= n_columns Xt
    /\ length cells = n_columns a
    /\ rows Xt !! i
       = Some (map Some cells ++ replicate (n_columns Xt - n_columns a) None)
    /\ forall t d r v, rows a !! t = Some r -> r !! d = Some v -> d < n_columns a ->
         exists cell, cells !! d = Some cell /\ cell !! t = Some v.
Proof.
  intros Hp HXt Hi. rewrite (transform_series_run self X X3 Hp) in HXt. cbn [snd] in HXt.
  destruct (collect (map _ (items X3))) as [e|l] eqn:Hc; [discriminate|].
  cbn [bind] in HXt.
  pose proof (collected_frames _ _ _ _ Hc) as Hall.
  destruct (proj1 (collected_lookup _ _ _ i Hc) inst Hi) as (f & Hf & Hrow).
  destruct (series_row_cells _ _ _ _ Hrow) as (a & cells & Ha & -> & Hlen & Hcells).
  destruct (pd_concat_rows_ok l Xt HXt) as [Hne ->].
  exists a, cells. unfold n_columns at 2 4 6. cbn [shape rows snd].
  split; [exact Ha|]. split; [|split; [exact Hlen|split; [|exact Hcells]]].
  - apply le_foldr_max. apply list_elem_of_fmap.
    eexists. split; [|eapply list_elem_of_lookup_2; exact Hf]. reflexivity.
  - etrans; [apply list_lookup_fmap|].
    rewrite (concat_single_rows l i (mkTable (1, n_columns a) [cells]) cells); [|
      eapply Forall_impl; [exact Hall|]; intros f' (_ & c & Hc' & _); by exists c
      |exact Hf|reflexivity].
    cbn. unfold pad_row. by rewrite Hlen.
Qed.

(** Some instance is as wide as the frame. *)
Lemma series_width_attained (self : t T) (X : PyInput) (X3 : Array3)
    (Xt : Table (option series)) :
  prepared self X X3 ->
  snd (transform_series self X) = ok Xt ->
  exists i inst a,
    items X3 !! i = Some inst
    /\ snd (fit_transform (clone (transformer self)) (instance_input X3 inst))
       = ok (Array2 a)
    /\ n_columns a = n_columns Xt.
Proof.
  intros Hp HXt. rewrite (transform_series_run self X X3 Hp) in HXt. cbn [snd] in HXt.
  destruct (collect (map _ (items X3))) as [e|l] eqn:Hc; [discriminate|].
  cbn [bind] in HXt.
  destruct (pd_concat_rows_ok l Xt HXt) as [Hne ->].
  assert (Hmax : foldr Nat.max 0 (map n_columns l) ∈ map n_columns l).
  { apply foldr_max_attained. by destruct l. }
  apply list_elem_of_fmap in Hmax as (f & Hwidth & Hf).
  apply list_elem_of_lookup_1 in Hf as [i Hf].
  destruct (proj2 (collected_lookup _ _ _ i Hc) f Hf) as (inst & Hi & Hrow).
  destruct (series_row_cells _ _ _ _ Hrow) as (a & cells & Ha & -> & _).
  exists i, inst, a. split; [exact Hi|]. split; [exact Ha|].
  unfold n_columns at 2. cbn [shape snd]. by rewrite Hwidth.
Qed.

(** X12: when the series-to-series transformer returns, the panel had at
    least one instance, and the frame returned is well formed with one
    row per instance: N rows, each as wide as the frame.  The width is
    that of the widest transformed instance: no transformed instance has
    more columns than the frame and one of them has as many.  The row of
    an instance holds one cell per column of its transformed table and
    after them missing cells up to the width of the frame. *)
Theorem series_output_shape (self : t T) (X : PyInput) (X3 : Array3)
    (Xt : Table (option series)) :
  prepared self X X3 ->
  snd (transform_series self X) = ok Xt ->
  0 < dim0 X3
  /\ n_rows Xt = dim0 X3
  /\ length (rows Xt) = dim0 X3
  /\ Forall (fun row => length row = n_columns Xt) (rows Xt)
  /\ (forall i inst, items X3 !! i = Some inst ->
      exists a cells,
        snd (fit_transform (clone (transformer self)) (instance_input X3 inst))
        = ok (Array2 a)
        /\ n_columns a <= n_columns Xt
        /\ length cells = n_columns a
        /\ rows Xt !! i
           = Some (map Some cells ++ replicate (n_columns Xt - n_columns a) None))
  /\ (exists i inst a,
        items X3 !! i = Some inst
        /\ snd (fit_transform (clone (transformer self)) (instance_input X3 inst))
           = ok (Array2 a)
        /\ n_columns a = n_columns Xt).
Proof.
  intros Hp HXt.
  assert (Hshape : 0 < dim0 X3 /\ n_rows Xt = dim0 X3 /\ length (rows Xt) = dim0 X3
                   /\ Forall (fun row => length row = n_columns Xt) (rows Xt)).
  { pose proof HXt as HXt'.
    rewrite (transform_series_run self X X3 Hp) in HXt'. cbn [snd] in HXt'.
    pose proof (coerced_items X X3 (proj2 (proj2 Hp))) as Hlen.
    destruct (collect (map _ (items X3))) as [e|l] eqn:Hc; [discriminate|].
    cbn [bind] in HXt'.
    pose proof (collected_frames _ _ _ _ Hc) as Hall.
    apply collect_ok_length in Hc. rewrite length_map, Hlen in Hc.
    destruct (one_row_frames l Hall) as (Hsum & Hcat & Hwide).
    destruct (pd_concat_rows_ok l Xt HXt') as [Hne ->].
    unfold n_rows at 1. unfold n_columns at 1. cbn [shape rows fst snd].
    split; [destruct l; [done|simpl in Hc; lia]|].
    split; [by rewrite Hsum|]. split; [by rewrite length_map, Hcat|].
    apply Forall_forall. intros row Hrow.
    apply list_elem_of_fmap in Hrow as (cells & -> & Hcells).
    apply pad_row_length. rewrite Forall_forall in Hwide. by apply Hwide. }
  destruct Hshape as (H0 & H1 & H2 & H3).
  split; [exact H0|]. split; [exact H1|]. split; [exact H2|]. split; [exact H3|].
  split; [|exact (series_width_attained self X X3 Xt Hp HXt)].
  intros i inst Hi.
  destruct (series_row_at self X X3 Xt i inst Hp HXt Hi)
    as (a & cells & Ha & Hle & Hlen & Hrow & _).
  by exists a, cells.
Qed.

Lemma clones_after_untouched {A} (template : T) (X3 : Array3)
    (row : list series -> result A) (insts : list (list series))
    (k j : nat) (inst : list series) :
  insts !! k = Some inst -> is_ok (row inst) = false ->
  k < j -> j < length insts ->
  clones_after template X3 row insts !! j = Some (clone template).
Proof.
  revert k j. induction insts as [|inst0 insts IH]; intros k j Hk Hbad Hkj Hj.
  - simpl in Hj. lia.
  - destruct j as [|j]; [lia|]. simpl in Hj. cbn [clones_after lookup list_lookup].
    destruct (is_ok (row inst0)) eqn:Hok.
    + destruct k as [|k]; [injection Hk as ->; congruence|].
      apply (IH k j); [exact Hk|exact Hbad|lia|lia].
    + rewrite map_const_replicate. apply lookup_replicate_2. lia.
Qed.

(** X13: the instances are gone through in order and the first exception
    ends the loop: when the instance at index k makes the call raise
    (its own row cannot be computed), the clone of every later instance
    is still the unfitted clone of the template.  This holds for both row
    transformers. *)
Theorem later_clones_untouched (self : t T) (X : PyInput) (X3 : Array3)
    (k j : nat) (inst : list series) :
  prepared self X X3 ->
  items X3 !! k = Some inst ->
  k < j -> j < dim0 X3 ->
  (is_ok (primitives_row (transformer self) X3 inst) = false ->
   exists ts, transformer_ (fst (transform_primitives self X)) = Some ts
     /\ ts !! j = Some (clone (transformer self)))
  /\ (is_ok (series_row (transformer self) X3 inst) = false ->
      exists ts, transformer_ (fst (transform_series self X)) = Some ts
        /\ ts !! j = Some (clone (transformer self))).
Proof.
  intros Hp Hk Hkj Hj.
  pose proof (coerced_items X X3 (proj2 (proj2 Hp))) as Hlen.
  split; intros Hbad.
  - rewrite (transform_primitives_run self X X3 Hp). cbn [fst].
    eexists. split; [reflexivity|].
    apply (clones_after_untouched _ _ _ _ k j inst); [done..|lia].
  - rewrite (transform_series_run self X X3 Hp). cbn [fst].
    eexists. split; [reflexivity|].
    apply (clones_after_untouched _ _ _ _ k j inst); [done..|lia].
Qed.

End More.

Lemma swapped_prepared :
  prepared (fitted_row_transformer SeriesToPrimitivesRowTransformer summer)
           (Ndarray3 panel_2x3x2_swapped) panel_2x3x2_swapped.
Proof. by repeat split. Qed.

Lemma primitives_row_is_local_witness :
  rows (mkTable (2, 3) [[3; 7; 11]; [15; 19; 23]]%Z) !! 0
  = rows (mkTable (2, 3) [[15; 19; 23]; [3; 7; 11]]%Z) !! 1
  /\ is_Some (rows (mkTable (2, 3) [[3; 7; 11]; [15; 19; 23]]%Z) !! 0).
Proof.
  apply (primitives_row_is_local
           (fitted_row_transformer SeriesToPrimitivesRowTransformer summer)
           (Ndarray3 panel_2x3x2) (Ndarray3 panel_2x3x2_swapped)
           panel_2x3x2 panel_2x3x2_swapped
           (mkTable (2, 3) [[3; 7; 11]; [15; 19; 23]]%Z)
           (mkTable (2, 3) [[15; 19; 23]; [3; 7; 11]]%Z)
           0 1 [[1; 2]; [3; 4]; [5; 6]]%Z
           summer_prepared swapped_prepared); reflexivity.
Defined.

Lemma factory_result_passes_check_witness :
  make_row_transformer summer None (Some true)
  = ok (RowTransformer.mk SeriesToPrimitivesRowTransformer summer true false None)
  /\ _check_transformer
       (RowTransformer.mk SeriesToPrimitivesRowTransformer summer true false None)
     = ok tt.
Proof.
  split; [reflexivity|].
  apply (factory_result_passes_check summer (Some true)
           (RowTransformer.mk SeriesToPrimitivesRowTransformer summer true false None)).
  reflexivity.
Defined.

Lemma forced_variant_is_checked_witness :
  transform
    (fit (RowTransformer.mk SeriesToSeriesRowTransformer summer true false None)
         (Ndarray3 panel_2x3x2))
    (Ndarray3 panel_2x3x2)
  = (fit (RowTransformer.mk SeriesToSeriesRowTransformer summer true false None)
         (Ndarray3 panel_2x3x2),
     raise (TypeError "transformer must be a _SeriesToSeriesTransformer")).
Proof.
  apply (forced_variant_is_checked summer "series-to-series"
           (RowTransformer.mk SeriesToSeriesRowTransformer summer true false None)
           (Ndarray3 panel_2x3x2) (Ndarray3 panel_2x3x2)); reflexivity.
Defined.

Lemma varying_prepared :
  prepared (RowTransformer.mk SeriesToSeriesRowTransformer varying true true None)
           (Ndarray3 ragged_panel) ragged_panel.
Proof. by repeat split. Qed.

Lemma series_output_shape_witness :
  snd (transform_series
         (RowTransformer.mk SeriesToSeriesRowTransformer varying true true None)
         (Ndarray3 ragged_panel)) = ok ragged_frame
  /\ rows ragged_frame !! 0 = Some [Some [1; 2]; Some [5; 6]; None]%Z
  /\ 0 < dim0 ragged_panel
  /\ n_rows ragged_frame = dim0 ragged_panel
  /\ length (rows ragged_frame) = dim0 ragged_panel
  /\ Forall (fun row => length row = n_columns ragged_frame) (rows ragged_frame)
  /\ (forall i inst, items ragged_panel !! i = Some inst ->
      exists a cells,
        snd (fit_transform (clone varying) (instance_input ragged_panel inst))
        = ok (Array2 a)
        /\ n_columns a <= n_columns ragged_frame
        /\ length cells = n_columns a
        /\ rows ragged_frame !! i
           = Some (map Some cells
                   ++ replicate (n_columns ragged_frame - n_columns a) None))
  /\ (exists i inst a,
        items ragged_panel !! i = Some inst
        /\ snd (fit_transform (clone varying) (instance_input ragged_panel inst))
           = ok (Array2 a)
        /\ n_columns a = n_columns ragged_frame).
Proof.
  split; [reflexivity|]. split; [reflexivity|].
  apply (series_output_shape
           (RowTransformer.mk SeriesToSeriesRowTransformer varying true true None)
           (Ndarray3 ragged_panel) ragged_panel ragged_frame varying_prepared).
  reflexivity.
Defined.

Lemma later_clones_untouched_witness :
  exists ts,
    transformer_ (fst (transform_primitives
                         (fitted_row_transformer SeriesToPrimitivesRowTransformer min_max)
                         (Ndarray3 panel_2x3x2))) = Some ts
    /\ ts !! 1 = Some (clone min_max).
Proof.
  apply (proj1 (later_clones_untouched
                  (fitted_row_transformer SeriesToPrimitivesRowTransformer min_max)
                  (Ndarray3 panel_2x3x2) panel_2x3x2 0 1 [[1; 2]; [3; 4]; [5; 6]]%Z
                  min_max_prepared eq_refl ltac:(lia) ltac:(unfold dim0; simpl; lia))).
  reflexivity.
Defined.

End RowTransformerMore.

(** ** Row transformers: the order and the content of the rows *)

Module RowOrderSpec.
Import Utils RowTransformer Examples MoreExamples RowTransformerSpec RowTransformerMore.
#[local] Open Scope list_scope.

Section Order.
Context {T : Type} `{Estimator T}.

(** C8: for a panel of N instances both row transformers go through the
    instances in the order of their indices, and row i of the output
    comes from instance i.

    - What a clone is handed for an instance is the instance transposed,
      time axis first and variable axis second: a table of T rows and D
      columns whose row t holds, at position d, the value of variable d
      at time t.
    - The outcome of the series-to-primitives transformer is the list of
      the rows of the instances in order, each computed by a fresh clone
      of the template, or the exception of the first instance that
      raises.  Row i holds what the clone returned for instance i,
      converted to float64: a vector of D numbers entry by entry (as it
      is when the numbers are below 2^53 in magnitude), a single number
      repeated D times, a table of one row as that row.
    - The outcome of the series-to-series transformer is likewise the
      list of the frames of the instances in order, stacked, or the
      first exception.  Row i holds one cell per column of the table the
      clone returned for instance i, cell d holding at time t the entry
      at row t and column d of that table, and after them missing cells
      up to the width of the frame. *)
Theorem transform_row_order (self : t T) (X : PyInput) (X3 : Array3) :
  prepared self X X3 ->
  (forall i inst, items X3 !! i = Some inst ->
     shape (instance_input X3 inst) = (dim2 X3, dim1 X3)
     /\ length (rows (instance_input X3 inst)) = dim2 X3
     /\ forall d t r v, inst !! d = Some r -> r !! t = Some v ->
          exists row, rows (instance_input X3 inst) !! t = Some row
                      /\ length row = dim1 X3
                      /\ row !! d = Some v)
  /\ snd (transform_primitives self X)
     = (do rows <- collect (map (primitives_row (transformer self) X3) (items X3));
        ok (mkTable (dim0 X3, dim1 X3) rows))
  /\ (forall Xt, snd (transform_primitives self X) = ok Xt ->
      forall i inst, items X3 !! i = Some inst ->
      exists value row,
        snd (fit_transform (clone (transformer self)) (instance_input X3 inst)) = ok value
        /\ rows Xt !! i = Some row
        /\ length row = dim1 X3
        /\ (forall values, value = Array1 values -> length values = dim1 X3 ->
            forall d v, values !! d = Some v ->
              exists x, float64 v = ok x /\ row !! d = Some x)
        /\ (forall values, value = Array1 values -> length values = dim1 X3 ->
            Forall (fun v => (Z.abs v < 2 ^ 53)%Z) values -> row = values)
        /\ (forall v, value = Scalar v -> (Z.abs v < 2 ^ 53)%Z ->
            row = replicate (dim1 X3) v)
        /\ (forall v, value = Array1 [v] -> (Z.abs v < 2 ^ 53)%Z ->
            row = replicate (dim1 X3) v)
        /\ (forall a values, value = Array2 a -> rows a = [values] ->
            length values = dim1 X3 ->
            Forall (fun v => (Z.abs v < 2 ^ 53)%Z) values -> row = values))
  /\ snd (transform_series self X)
     = (do xts <- collect (map (series_row (transformer self) X3) (items X3));
        pd_concat_rows xts)
  /\ (forall Xt, snd (transform_series self X) = ok Xt ->
      forall i inst, items X3 !! i = Some inst ->
      exists a cells,
        snd (fit_transform (clone (transformer self)) (instance_input X3 inst))
        = ok (Array2 a)
        /\ length cells = n_columns a
        /\ rows Xt !! i
           = Some (map Some cells ++ replicate (n_columns Xt - n_columns a) None)
        /\ forall t d r v, rows a !! t = Some r -> r !! d = Some v -> d < n_columns a ->
             exists cell, cells !! d = Some cell /\ cell !! t = Some v).
Proof.
  intros Hp.
  split; [|split; [|split; [|split]]].
  - intros i inst Hi.
    pose proof (coerced_well_shaped X X3 (proj2 (proj2 Hp))) as Hw.
    destruct (well_shaped3_instance X3 i inst Hw Hi) as [HD HT].
    exact (instance_input_entries X3 inst HD HT).
  - by rewrite (transform_primitives_run self X X3 Hp).
  - intros Xt HXt i inst Hi.
    pose proof (primitives_row_at self X X3 Xt i inst Hp HXt Hi) as Hrow.
    destruct (rows Xt !! i) as [row|]; [|discriminate].
    cbn in Hrow. injection Hrow as Hrow. symmetry in Hrow.
    unfold primitives_row, fit_clone in Hrow.
    destruct (snd (fit_transform _ _)) as [e|value]; [discriminate|].
    cbn [bind] in Hrow. exists value, row.
    split; [reflexivity|]. split; [reflexivity|].
    split; [exact (assigned_row_length _ _ _ Hrow)|].
    exact (assigned_row_cases _ _ _ Hrow).
  - by rewrite (transform_series_run self X X3 Hp).
  - intros Xt HXt i inst Hi.
    destruct (series_row_at self X X3 Xt i inst Hp HXt Hi)
      as (a & cells & Ha & _ & Hlen & Hrow & Hcells).
    by exists a, cells.
Qed.

End Order.

Lemma transform_row_order_witness :
  rows (instance_input panel_2x3x2 [[1; 2]; [3; 4]; [5; 6]]%Z) = [[1; 3; 5]; [2; 4; 6]]%Z
  /\ snd (transform_primitives
            (fitted_row_transformer SeriesToPrimitivesRowTransformer summer)
            (Ndarray3 panel_2x3x2))
     = ok (mkTable (2, 3) [[3; 7; 11]; [15; 19; 23]]%Z)
  /\ (exists row,
        rows (instance_input panel_2x3x2 [[1; 2]; [3; 4]; [5; 6]]%Z) !! 1 = Some row
        /\ length row = 3
        /\ row !! 2 = Some 6%Z)
  /\ (exists value row,
        snd (fit_transform (clone summer)
               (instance_input panel_2x3x2 [[7; 8]; [9; 10]; [11; 12]]%Z)) = ok value
        /\ rows (mkTable (2, 3) [[3; 7; 11]; [15; 19; 23]]%Z) !! 1 = Some row
        /\ length row = 3).
Proof.
  split; [reflexivity|]. split; [reflexivity|].
  destruct (transform_row_order
              (fitted_row_transformer SeriesToPrimitivesRowTransformer summer)
              (Ndarray3 panel_2x3x2) panel_2x3x2 summer_prepared)
    as (Hinput & _ & Hrows & _ & _).
  split.
  - destruct (Hinput 0 [[1; 2]; [3; 4]; [5; 6]]%Z eq_refl) as (_ & _ & Hentry).
    destruct (Hentry 2 1 [5; 6]%Z 6%Z eq_refl eq_refl) as (row & Hrow & Hlen & Hv).
    exists row. split; [exact Hrow|]. split; [exact Hlen|exact Hv].
  - destruct (Hrows (mkTable (2, 3) [[3; 7; 11]; [15; 19; 23]]%Z) eq_refl
                    1 [[7; 8]; [9; 10]; [11; 12]]%Z eq_refl)
      as (value & row & Hvalue & Hrow & Hlen & _).
    exists value, row. split; [exact Hvalue|]. split; [exact Hrow|exact Hlen].
Defined.

(** A number beyond 2^53 does not come back as it went in: the row of a
    template that returns 2^53 + 1 holds 2^53. *)
Lemma large_value_is_rounded :
  snd (transform_primitives
         (RowTransformer.mk SeriesToPrimitivesRowTransformer (mkLargeValue false)
            true true None)
         (Ndarray3 panel_2x3x2))
  = ok (mkTable (2, 3) [[2 ^ 53; 2 ^ 53; 2 ^ 53]; [2 ^ 53; 2 ^ 53; 2 ^ 53]]%Z).
Proof. by vm_compute. Qed.

End RowOrderSpec.

(** ** The message of the shape error *)

Module ShapeErrorSpec.
Import ColumnTransformer.

Lemma length_append (s1 s2 : string) :
  String.length (s1 ++ s2) = String.length s1 + String.length s2.
Proof. induction s1 as [|c s1 IH]; simpl; [done|by rewrite IH]. Qed.

Lemma append_cancel_r (s n1 n2 : string) :
  (n1 ++ s)%string = (n2 ++ s)%string -> n1 = n2.
Proof.
  revert n2. induction n1 as [|c n1 IH]; intros [|c' n2]; intros Heq.
  - reflexivity.
  - exfalso. apply (f_equal String.length) in Heq.
    change (String c' n2 ++ s)%string with (String c' (n2 ++ s)) in Heq.
    rewrite length_append in Heq. simpl in Heq. rewrite length_append in Heq. lia.
  - exfalso. apply (f_equal String.length) in Heq.
    change (String c n1 ++ s)%string with (String c (n1 ++ s)) in Heq.
    rewrite (length_append "") in Heq. simpl in Heq.
    rewrite length_append in Heq. lia.
  - change (String c (n1 ++ s) = String c' (n2 ++ s))%string in Heq.
    injection Heq as -> Heq. f_equal. by apply IH.
Qed.

(** X14: the message of the shape error determines the entry it names:
    two entries with different names never get the same error. *)
Theorem output_message_names_entry (name1 name2 : string) :
  ValueError (output_message name1) = ValueError (output_message name2) ->
  name1 = name2.
Proof.
  unfold output_message. intros [= Heq]. exact (append_cancel_r _ name1 name2 Heq).
Qed.

Lemma output_message_names_entry_witness :
  ValueError (output_message "all") = ValueError (output_message "all")
  /\ "all" = "all".
Proof.
  split; [reflexivity|].
  apply (output_message_names_entry "all" "all"). reflexivity.
Defined.

End ShapeErrorSpec.
